(** * The HackGreenville Slack events bot: model and properties

    A shallow embedding of [src/database.py], [src/bot.py] and
    [src/server.py], followed by the message builder, whose module
    ([message_builder.py]) is known from its tests only.

    Conventions.
    - An instant ([datetime], aware, UTC) is an integer number of
      microseconds since the epoch; a [timedelta] is a number of
      microseconds.  The ISO-8601 text SQLite stores for an instant and the
      decimal text Slack uses for a message [ts] are kept as the instants
      they denote: comparing the texts of UTC instants of one format orders
      them as the instants.
    - A table is the list of its rows in insertion order; [cooldowns], whose
      only access path is its [UNIQUE(accessor,resource)] key, is a finite
      map from that key.
    - A Python exception is a [Raise] result.
    - A call binds its positional arguments to the parameters in order and
      raises [TypeError] when their numbers differ; the functions of
      [database.py], as a caller reaches them, are in [Call]. *)

From Stdlib Require Import ZArith String Ascii List Lia Sorted.
From stdpp Require Import base list strings gmap pretty.

Set Warnings "-register-all".
Local Open Scope Z_scope.

(** ** Results of fallible code *)

(** The exceptions met: [sqlite3.IntegrityError]; [TypeError]; [KeyError];
    [InterfaceError], with which [sqlite3] refuses to bind a parameter of a
    class it does not support ([ProgrammingError] from Python 3.11 on);
    [SlackApiError], raised by the client when Slack refuses a call; and
    [ClientError], raised by [aiohttp] when a request or the decoding of its
    answer fails. *)
Inductive exception :=
| IntegrityError | TypeError | KeyError | InterfaceError | SlackApiError | ClientError.

#[global] Instance exception_eq_dec : EqDecision exception.
Proof. solve_decision. Defined.

Inductive result (A : Type) :=
| Ok (a : A)
| Raise (e : exception).
Arguments Ok {A} a.
Arguments Raise {A} e.

Definition bind {A B} (r : result A) (k : A -> result B) : result B :=
  match r with
  | Ok a => k a
  | Raise e => Raise e
  end.

Notation "'let*' x ':=' r 'in' k" := (bind r (fun x => k))
  (at level 10, x name, r at level 100, k at level 200).

(** ** Time *)

Module Time.

Definition second : Z := 1000000.
Definition minute : Z := 60 * second.
Definition day : Z := 24 * 60 * minute.

(** [timedelta(days=n)] and [timedelta(minutes=n)]. *)
Definition days (n : Z) : Z := n * day.
Definition minutes (n : Z) : Z := n * minute.

(** [datetime.weekday()]: Monday is 0, Sunday is 6; the epoch was a Thursday. *)
Definition weekday (t : Z) : Z := (t / day + 3) mod 7.

(** The civil date (year, month, day of month) of a day number. *)
Definition civil_from_days (n : Z) : Z * Z * Z :=
  let z := n + 719468 in
  let era := z / 146097 in
  let doe := z - era * 146097 in
  let yoe := (doe - doe / 1460 + doe / 36524 - doe / 146096) / 365 in
  let doy := doe - (365 * yoe + yoe / 4 - yoe / 100) in
  let mp := (5 * doy + 2) / 153 in
  let d := doy - (153 * mp + 2) / 5 + 1 in
  let m := if mp <? 10 then mp + 3 else mp - 9 in
  ((if m <=? 2 then yoe + era * 400 + 1 else yoe + era * 400), m, d).

Definition month_name (m : Z) : string :=
  nth (Z.to_nat (m - 1))
    ["January"; "February"; "March"; "April"; "May"; "June"; "July";
     "August"; "September"; "October"; "November"; "December"]%string
    ""%string.

(** [t.strftime('%B %-d')]: the month's name and the day without padding. *)
Definition strftime_B_d (t : Z) : string :=
  let '(_, m, d) := civil_from_days (t / day) in
  month_name m +:+ " " +:+ pretty d.

End Time.

(** ** database.py *)

Module Database.

(** [channels(id, slack_channel_id UNIQUE)] *)
Record channel_row := {
  c_id : nat;
  c_slack_channel_id : string }.

(** [messages(id, week, message_timestamp, message, sequence_position, channel_id)] *)
Record message_row := {
  m_id : nat;
  m_week : Z;
  m_message_timestamp : Z;
  m_message : string;
  m_sequence_position : Z;
  m_channel_id : nat }.

(** The database file.  [channels_seq] and [messages_seq] are the largest
    row ids handed out so far ([AUTOINCREMENT]); [foreign_keys] tells whether
    the connection enforces [ON DELETE CASCADE]. *)
Record store := {
  channels : list channel_row;
  messages : list message_row;
  cooldowns : gmap (string * string) Z;
  channels_seq : nat;
  messages_seq : nat;
  foreign_keys : bool }.

(** What [create_tables] leaves in a new file. *)
Definition create_tables (fk : bool) : store :=
  {| channels := []; messages := []; cooldowns := ∅;
     channels_seq := 0; messages_seq := 0; foreign_keys := fk |}.

(** [SELECT id FROM channels WHERE slack_channel_id = ?] then
    [cur.fetchone()[0]]: subscripting [None] raises [TypeError]. *)
Definition select_channel_id (st : store) (slack_channel_id : string) : result nat :=
  match head (filter (fun c => c_slack_channel_id c = slack_channel_id) (channels st)) with
  | Some c => Ok (c_id c)
  | None => Raise TypeError
  end.

Definition create_message (st : store) (week : Z) (message : string)
    (message_timestamp : Z) (slack_channel_id : string) (sequence_position : Z)
  : result store :=
  let* channel_id := select_channel_id st slack_channel_id in
  Ok {| channels := channels st;
        messages := messages st ++
          [ {| m_id := S (messages_seq st); m_week := week;
               m_message_timestamp := message_timestamp; m_message := message;
               m_sequence_position := sequence_position;
               m_channel_id := channel_id |} ];
        cooldowns := cooldowns st;
        channels_seq := channels_seq st;
        messages_seq := S (messages_seq st);
        foreign_keys := foreign_keys st |}.

(** The rows [UPDATE messages SET message = ? WHERE week = ? AND
    message_timestamp = ? AND channel_id = ?] rewrites. *)
Definition update_matches (week message_timestamp : Z) (channel_id : nat)
    (m : message_row) : bool :=
  bool_decide (m_week m = week)
  && bool_decide (m_message_timestamp m = message_timestamp)
  && bool_decide (m_channel_id m = channel_id).

Definition set_message (message : string) (m : message_row) : message_row :=
  {| m_id := m_id m; m_week := m_week m;
     m_message_timestamp := m_message_timestamp m; m_message := message;
     m_sequence_position := m_sequence_position m;
     m_channel_id := m_channel_id m |}.

Definition update_message (st : store) (week : Z) (message : string)
    (message_timestamp : Z) (slack_channel_id : string) : result store :=
  let* channel_id := select_channel_id st slack_channel_id in
  Ok {| channels := channels st;
        messages :=
          (fun m => if update_matches week message_timestamp channel_id m
                    then set_message message m else m) <$> messages st;
        cooldowns := cooldowns st;
        channels_seq := channels_seq st;
        messages_seq := messages_seq st;
        foreign_keys := foreign_keys st |}.

(** A row of [get_messages]: the dict with keys [message],
    [message_timestamp], [slack_channel_id] and [sequence_position]. *)
Record message_dict := {
  message : string;
  message_timestamp : Z;
  slack_channel_id : string;
  sequence_position : Z }.

(** [FROM messages m JOIN channels c ON m.channel_id = c.id WHERE m.week = ?] *)
Definition join_week (st : store) (week : Z) : list (message_row * channel_row) :=
  m ← filter (fun m => m_week m = week) (messages st);
  (fun c => (m, c)) <$> filter (fun c => m_channel_id m = c_id c) (channels st).

(** [ORDER BY key ASC], rows of equal key staying in scan order. *)
Fixpoint insert_by {A} (key : A -> Z) (x : A) (l : list A) : list A :=
  match l with
  | [] => [x]
  | y :: l' => if key x <=? key y then x :: y :: l' else y :: insert_by key x l'
  end.

Definition order_by {A} (key : A -> Z) (l : list A) : list A :=
  foldr (insert_by key) [] l.

Definition to_dict (r : message_row * channel_row) : message_dict :=
  {| message := m_message r.1;
     message_timestamp := m_message_timestamp r.1;
     slack_channel_id := c_slack_channel_id r.2;
     sequence_position := m_sequence_position r.1 |}.

Definition get_messages (st : store) (week : Z) : list message_dict :=
  to_dict <$> order_by (fun r => m_sequence_position r.1) (join_week st week).

Definition get_slack_channel_ids (st : store) : list string :=
  c_slack_channel_id <$> channels st.

(** [INSERT INTO channels (slack_channel_id) VALUES (?)]: the [UNIQUE]
    column refuses a second row of the same Slack channel. *)
Definition add_channel (st : store) (slack_channel_id : string) : result store :=
  if bool_decide (slack_channel_id ∈ get_slack_channel_ids st)
  then Raise IntegrityError
  else Ok {| channels := channels st ++
               [ {| c_id := S (channels_seq st);
                    c_slack_channel_id := slack_channel_id |} ];
             messages := messages st;
             cooldowns := cooldowns st;
             channels_seq := S (channels_seq st);
             messages_seq := messages_seq st;
             foreign_keys := foreign_keys st |}.

(** [DELETE FROM channels WHERE slack_channel_id = ?]: a [DELETE] that
    matches no row is no error.  With foreign keys enforced the messages of
    a deleted channel go with it. *)
Definition remove_channel (st : store) (channel_id : string) : result store :=
  let gone := filter (fun c => c_slack_channel_id c = channel_id) (channels st) in
  Ok {| channels := filter (fun c => c_slack_channel_id c ≠ channel_id) (channels st);
        messages :=
          if foreign_keys st
          then filter (fun m => m_channel_id m ∉ c_id <$> gone) (messages st)
          else messages st;
        cooldowns := cooldowns st;
        channels_seq := channels_seq st;
        messages_seq := messages_seq st;
        foreign_keys := foreign_keys st |}.

(** [delete_old_messages(days_back)].  The clock is read once for each of
    the two statements: [now_messages] and [now_cooldowns]. *)
Definition delete_old_messages (st : store) (now_messages now_cooldowns : Z)
    (days_back : Z) : store :=
  {| channels := channels st;
     messages :=
       filter (fun m => ¬ (m_message_timestamp m < now_messages - Time.days days_back))
              (messages st);
     cooldowns :=
       filter (fun kv : string * string * Z => ¬ (kv.2 < now_cooldowns - Time.days days_back))
              (cooldowns st);
     channels_seq := channels_seq st;
     messages_seq := messages_seq st;
     foreign_keys := foreign_keys st |}.

Definition default_days_back : Z := 90.

(** [INSERT ... ON CONFLICT(accessor,resource) DO UPDATE SET ...] *)
Definition create_cooldown (st : store) (now : Z) (accessor resource : string)
    (cooldown_minutes : Z) : store :=
  {| channels := channels st;
     messages := messages st;
     cooldowns := <[(accessor, resource) := now + Time.minutes cooldown_minutes]> (cooldowns st);
     channels_seq := channels_seq st;
     messages_seq := messages_seq st;
     foreign_keys := foreign_keys st |}.

Definition get_cooldown_expiry_time (st : store) (accessor resource : string) : option Z :=
  cooldowns st !! (accessor, resource).

(** The dict [get_most_recent_message_for_channel] returns, with keys
    [week], [message] and [message_timestamp]. *)
Record recent_dict := {
  recent_week : Z;
  recent_message : string;
  recent_message_timestamp : Z }.

(** [FROM messages m JOIN channels c ON m.channel_id = c.id
    WHERE c.slack_channel_id = ?] *)
Definition join_channel (st : store) (slack_channel_id : string) : list message_row :=
  m ← messages st;
  (fun _ => m) <$>
    filter (fun c => m_channel_id m = c_id c /\ c_slack_channel_id c = slack_channel_id)
           (channels st).

(** [ORDER BY m.week DESC, m.message_timestamp DESC LIMIT 1], then
    [fetchone()]; the empty dict of a channel without messages is [None]. *)
Definition get_most_recent_message_for_channel (st : store) (slack_channel_id : string)
  : option recent_dict :=
  (fun m => {| recent_week := m_week m;
               recent_message := m_message m;
               recent_message_timestamp := m_message_timestamp m |}) <$>
  head (order_by (fun m => - m_week m)
          (order_by (fun m => - m_message_timestamp m)
             (join_channel st slack_channel_id))).

End Database.

(** ** Calls into database.py

    [database.py] as a caller that passes positional arguments reaches it.
    Python binds the arguments to the parameters in order and raises
    [TypeError], before the body runs, when there are more or fewer of them
    than parameters.  Nothing checks the class of an argument: the body runs
    with what was bound, and a [?] of a statement takes it if [sqlite3]
    supports its class. *)

Module Call.

(** What the callers pass: a connection, the [datetime] of a week, a str
    (a channel id, a text), the str of a message [ts], an int. *)
Inductive value :=
| Connection
| Datetime (t : Z)
| Str (s : string)
| Timestamp (ts : Z)
| Int (n : Z).

(** [sqlite3] binds a str, an int and, through its adapter, a [datetime]
    to a [?]; a connection it refuses. *)
Definition refused (v : value) : bool :=
  match v with
  | Connection => true
  | _ => false
  end.

(** A call gives [Some] of what it returns or raises.  It gives [None]
    where a parameter is bound to a value that SQLite takes but that
    belongs in another column: a row or a comparison of that kind has no
    counterpart in the tables of [Database]. *)
Definition get_slack_channel_ids (st : Database.store) (args : list value)
  : option (result (list string)) :=
  match args with
  | [] => Some (Ok (Database.get_slack_channel_ids st))
  | _ => Some (Raise TypeError)
  end.

Definition get_messages (st : Database.store) (args : list value)
  : option (result (list Database.message_dict)) :=
  match args with
  | [week] =>
      match week with
      | Datetime week => Some (Ok (Database.get_messages st week))
      | Connection => Some (Raise InterfaceError)
      | _ => None
      end
  | _ => Some (Raise TypeError)
  end.

Definition add_channel (st : Database.store) (args : list value)
  : option (result Database.store) :=
  match args with
  | [slack_channel_id] =>
      match slack_channel_id with
      | Str slack_channel_id => Some (Database.add_channel st slack_channel_id)
      | Connection => Some (Raise InterfaceError)
      | _ => None
      end
  | _ => Some (Raise TypeError)
  end.

Definition remove_channel (st : Database.store) (args : list value)
  : option (result Database.store) :=
  match args with
  | [channel_id] =>
      match channel_id with
      | Str channel_id => Some (Database.remove_channel st channel_id)
      | Connection => Some (Raise InterfaceError)
      | _ => None
      end
  | _ => Some (Raise TypeError)
  end.

Section Texts.

(** The decimal text of a message [ts], a str like any channel id. *)
Variable ts_text : Z -> string.

(** [SELECT id FROM channels WHERE slack_channel_id = ?] with what is bound
    to [slack_channel_id], then [cur.fetchone()[0]]. *)
Definition select_channel_id (st : Database.store) (slack_channel_id : value)
  : option (result nat) :=
  match slack_channel_id with
  | Str s => Some (Database.select_channel_id st s)
  | Timestamp ts => Some (Database.select_channel_id st (ts_text ts))
  | Connection => Some (Raise InterfaceError)
  | Datetime _ | Int _ => None
  end.

(** The [SELECT] comes first; the [INSERT] then binds [week], [message],
    [message_timestamp], the channel id found and [sequence_position]. *)
Definition create_message (st : Database.store) (args : list value)
  : option (result Database.store) :=
  match args with
  | [week; message; message_timestamp; slack_channel_id; sequence_position] =>
      match select_channel_id st slack_channel_id with
      | Some (Ok _) =>
          if existsb refused [week; message; message_timestamp; sequence_position]
          then Some (Raise InterfaceError)
          else
            match week, message, message_timestamp, slack_channel_id, sequence_position with
            | Datetime week, Str message, Timestamp message_timestamp,
              Str slack_channel_id, Int sequence_position =>
                Some (Database.create_message st week message message_timestamp
                        slack_channel_id sequence_position)
            | _, _, _, _, _ => None
            end
      | Some (Raise e) => Some (Raise e)
      | None => None
      end
  | _ => Some (Raise TypeError)
  end.

Definition update_message (st : Database.store) (args : list value)
  : option (result Database.store) :=
  match args with
  | [week; message; message_timestamp; slack_channel_id] =>
      match select_channel_id st slack_channel_id with
      | Some (Ok _) =>
          if existsb refused [message; week; message_timestamp]
          then Some (Raise InterfaceError)
          else
            match week, message, message_timestamp, slack_channel_id with
            | Datetime week, Str message, Timestamp message_timestamp,
              Str slack_channel_id =>
                Some (Database.update_message st week message message_timestamp
                        slack_channel_id)
            | _, _, _, _ => None
            end
      | Some (Raise e) => Some (Raise e)
      | None => None
      end
  | _ => Some (Raise TypeError)
  end.

End Texts.

End Call.

(** ** bot.py

    [bot.py] passes its connection first in every call of [database.py],
    whose functions have no parameter for it: they open a connection of
    their own.  The calls are modelled as they are written. *)

Module Bot.

Definition nl : string := String (ascii_of_nat 10) EmptyString.

(** Slack's block kit payloads are JSON values. *)
Inductive json :=
| JString (s : string)
| JBool (b : bool)
| JObject (fields : list (string * json))
| JArray (items : list json).

(** An event as [bot.py] sees it ([event.py] is not among the sources): the
    attributes it reads and what its two rendering methods return. *)
Record Event := {
  uuid : string;
  time : Z;
  status : string;
  generate_blocks : list json;
  generate_text : string }.

(** The calls made to Slack's Web API. *)
Inductive slack_call :=
| chat_postMessage (channel : string) (blocks : list json) (text : string)
| chat_update (ts : Z) (channel : string) (blocks : list json) (text : string).

(** The workspace.  [slack_response] is what the client gives for the last
    of the calls made so far, which may depend on all of them: the [ts] of
    the message in Slack's answer, or the exception it raises when Slack
    refuses the call.  [ts_text] is the decimal text of a [ts]. *)
Class Slack := {
  slack_response : list slack_call -> result Z;
  ts_text : Z -> string }.

(** The database, the calls made to Slack and the acknowledgements sent to
    commands, oldest first. *)
Record world := {
  db : Database.store;
  calls : list slack_call;
  acks : list string }.

(** A piece of the program: from a world, the world it leaves and what it
    returns or raises there; [None] as in [Call]. *)
Definition io (A : Type) : Type := world -> option (world * result A).

Definition ret {A} (a : A) : io A := fun w => Some (w, Ok a).

Definition io_bind {A B} (m : io A) (k : A -> io B) : io B := fun w =>
  match m w with
  | Some (w', Ok a) => k a w'
  | Some (w', Raise e) => Some (w', Raise e)
  | None => None
  end.

Notation "'let!' x ':=' m 'in' k" := (io_bind m (fun x => k))
  (at level 10, x name, m at level 100, k at level 200).

(** A pure step that may raise. *)
Definition lift {A} (r : result A) : io A := fun w => Some (w, r).

(** A call of a function of [database.py] that reads. *)
Definition query {A} (f : Database.store -> list Call.value -> option (result A))
    (args : list Call.value) : io A := fun w =>
  match f (db w) args with
  | Some r => Some (w, r)
  | None => None
  end.

(** A call of one that writes: it commits when its body has run to the
    end, so that a call that raises leaves the database as it was. *)
Definition execute (f : Database.store -> list Call.value -> option (result Database.store))
    (args : list Call.value) : io unit := fun w =>
  match f (db w) args with
  | Some (Ok st) => Some ({| db := st; calls := calls w; acks := acks w |}, Ok tt)
  | Some (Raise e) => Some (w, Raise e)
  | None => None
  end.

(** [await APP.client.chat_postMessage(...)] and [chat_update(...)]. *)
Definition slack `{Slack} (c : slack_call) : io Z := fun w =>
  let calls' := calls w ++ [c] in
  Some ({| db := db w; calls := calls'; acks := acks w |}, slack_response calls').

(** [await ack(text)] *)
Definition ack (text : string) : io unit := fun w =>
  Some ({| db := db w; calls := calls w; acks := acks w ++ [text] |}, Ok tt).

(** [try: body except e: handler] *)
Definition try_except {A} (body : io A) (e : exception) (handler : io A) : io A := fun w =>
  match body w with
  | Some (w', Raise e') => if decide (e' = e) then handler w' else Some (w', Raise e')
  | r => r
  end.

(** [for x in l: f(x)], stopping at the first exception. *)
Fixpoint for_each {A} (f : A -> io unit) (l : list A) : io unit :=
  match l with
  | [] => ret tt
  | x :: l' => let! _ := f x in for_each f l'
  end.

(** [d[k]] *)
Definition getitem (d : gmap string (Z * string)) (k : string) : result (Z * string) :=
  match d !! k with
  | Some v => Ok v
  | None => Raise KeyError
  end.

(** [{m["slack_channel_id"]: {"timestamp": ..., "message": ...} for m in messages}]:
    a later row of a channel replaces an earlier one. *)
Definition message_details (messages : list Database.message_dict) : gmap string (Z * string) :=
  foldl (fun d m => <[Database.slack_channel_id m :=
                        (Database.message_timestamp m, Database.message m)]> d)
        ∅ messages.

Definition posted_channels_set (messages : list Database.message_dict) : gset string :=
  list_to_set (Database.slack_channel_id <$> messages).

(** The body of the loop over the subscribed channels.  [update_message]
    is called with five arguments and [create_message] with the same five:
    the connection, the week, the text, the [ts] and the channel. *)
Definition post_or_update_channel `{Slack} (conn : Call.value) (week : Z)
    (blocks : list json) (text : string)
    (details : gmap string (Z * string)) (posted : gset string)
    (slack_channel_id : string) : io unit :=
  let! unchanged :=
    (if bool_decide (slack_channel_id ∈ posted)
     then let! d := lift (getitem details slack_channel_id) in ret (bool_decide (text = d.2))
     else ret false) in
  if (unchanged : bool) then ret tt
  else if bool_decide (slack_channel_id ∈ posted) then
    let! d := lift (getitem details slack_channel_id) in
    let timestamp := d.1 in
    let! _ := slack (chat_update timestamp slack_channel_id blocks text) in
    execute (Call.update_message ts_text)
      [conn; Call.Datetime week; Call.Str text; Call.Timestamp timestamp;
       Call.Str slack_channel_id]
  else
    let! ts := slack (chat_postMessage slack_channel_id blocks text) in
    execute (Call.create_message ts_text)
      [conn; Call.Datetime week; Call.Str text; Call.Timestamp ts;
       Call.Str slack_channel_id].

Definition post_or_update_messages `{Slack} (conn : Call.value) (week : Z)
    (blocks : list json) (text : string) : io unit :=
  let! channels := query Call.get_slack_channel_ids [conn] in
  let! messages := query Call.get_messages [conn; Call.Datetime week] in
  for_each
    (post_or_update_channel conn week blocks text
       (message_details messages) (posted_channels_set messages))
    channels.

Definition divider : json := JObject [("type"%string, JString "divider")].

Definition header_text (week_start : Z) : string :=
  "HackGreenville Events for the week of " +:+ Time.strftime_B_d week_start.

Definition header_block (week_start : Z) : json :=
  JObject [("type"%string, JString "header");
           ("text"%string,
            JObject [("type"%string, JString "plain_text");
                     ("text"%string, JString (header_text week_start))])].

Definition supported_statuses : list string := ["cancelled"; "upcoming"; "past"]%string.

(** One turn of the loop over the events: both [continue]s leave the
    message as it is. *)
Definition add_event (week_start week_end : Z) (acc : list json * string) (event : Event)
  : list json * string :=
  if (time event <? week_start) || (time event >? week_end) then acc
  else if negb (bool_decide (status event ∈ supported_statuses)) then acc
  else (acc.1 ++ generate_blocks event ++ [divider],
        acc.2 +:+ generate_text event +:+ nl +:+ nl).

Definition week_start_of (probe_date : Z) : Z :=
  probe_date - Time.days (Time.weekday probe_date mod 7 + 1).

Definition week_end_of (probe_date : Z) : Z :=
  week_start_of probe_date + Time.days 7.

(** The message of the week that contains [probe_date]: blocks and text. *)
Definition build_week (probe_date : Z) (events : list Event) : list json * string :=
  let week_start := week_start_of probe_date in
  let week_end := week_end_of probe_date in
  foldl (add_event week_start week_end)
        ([header_block week_start; divider],
         header_text week_start +:+ nl +:+ nl +:+ "===" +:+ nl +:+ nl)
        events.

(** [resp] is what [await resp.json()] and [Event.from_event_json] give:
    the events of the answer, or the exception one of them raises. *)
Definition parse_events_for_week `{Slack} (conn : Call.value) (probe_date : Z)
    (resp : result (list Event)) : io unit :=
  let! events := lift resp in
  let built := build_week probe_date events in
  post_or_update_messages conn (week_start_of probe_date) built.1 built.2.

(** The body of [check_api] ([today] is midnight UTC of the current day).
    A request that fails is a [resp] that raises.  The cache around the
    function keeps what the body returns and is left out. *)
Definition check_api `{Slack} (conn : Call.value) (today : Z)
    (resp : result (list Event)) : io unit :=
  let! _ := parse_events_for_week conn today resp in
  parse_events_for_week conn (today + Time.days 5) resp.

(** The connection [bot.py] opens when it is loaded. *)
Definition CONN : Call.value := Call.Connection.

(** [/add_channel]; [channel_id] is [command["channel_id"]]. *)
Definition add_channel (channel_id : option string) : io unit :=
  match channel_id with
  | Some channel_id =>
      try_except
        (let! _ := execute Call.add_channel [CONN; Call.Str channel_id] in
         ack "Added channel to slack events bot 👍")
        IntegrityError
        (ack "slack events bot has already been activated for this channel")
  | None => ret tt
  end.

(** [/remove_channel] *)
Definition remove_channel (channel_id : option string) : io unit :=
  match channel_id with
  | Some channel_id =>
      try_except
        (let! _ := execute Call.remove_channel [CONN; Call.Str channel_id] in
         ack "Removed channel from slack events bot 👍")
        IntegrityError
        (ack "slack events bot is not activated for this channel")
  | None => ret tt
  end.

End Bot.

(** ** server.py *)

Module Server.

(** Whether [needle] occurs in [hay]: Python's [needle in hay]. *)
Fixpoint contains (needle hay : string) : bool :=
  String.prefix needle hay
  || match hay with
     | EmptyString => false
     | String _ hay' => contains needle hay'
     end.

(** [s] without the prefix [p], when it starts with it. *)
Fixpoint strip_prefix (p s : string) : option string :=
  match p, s with
  | EmptyString, _ => Some s
  | String a p', String b s' => if bool_decide (a = b) then strip_prefix p' s' else None
  | String _ _, EmptyString => None
  end.

Definition amp : ascii := ascii_of_nat 38.
Definition newline : ascii := ascii_of_nat 10.

(** The lazy [.+?] once it has taken a first character: it goes on taking
    characters other than a newline until the lookahead [(?=&)] holds. *)
Fixpoint lazy_until_amp (s : string) : option string :=
  match s with
  | EmptyString => None
  | String c s' =>
      if bool_decide (c = amp) then Some EmptyString
      else if bool_decide (c = newline) then None
      else String c <$> lazy_until_amp s'
  end.

(** [(.+?(?=&))] tried at the head of [s]. *)
Definition group_at (s : string) : option string :=
  match s with
  | EmptyString => None
  | String c s' =>
      if bool_decide (c = newline) then None else String c <$> lazy_until_amp s'
  end.

(** [re.search(r"team_domain=(.+?(?=&))", s)]: the group of the leftmost match. *)
Fixpoint search_team_domain (s : string) : option string :=
  match strip_prefix "team_domain=" s ≫= group_at with
  | Some g => Some g
  | None =>
      match s with
      | EmptyString => None
      | String _ s' => search_team_domain s'
      end
  end.

(** The payload is the request body decoded as UTF-8; [None] stands for the
    [None] that [logging.error] returns. *)
Definition identify_slack_team_domain (payload : string) : option string :=
  search_team_domain payload.

Definition check_api_being_requested (path payload : string) : bool :=
  bool_decide (path = "/slack/events"%string) && contains "command=%2Fcheck_api" payload.

(** [now] is the clock as read after the expiry was fetched. *)
Definition check_api_on_cooldown (st : Database.store) (now : Z)
    (team_domain : option string) : bool :=
  match team_domain with
  | None => true
  | Some td =>
      match Database.get_cooldown_expiry_time st td "check_api" with
      | None => false
      | Some expiry => if now >? expiry then false else true
      end
  end.

Definition update_check_api_cooldown (st : Database.store) (now : Z)
    (team_domain : option string) : Database.store :=
  match team_domain with
  | None => st
  | Some td => Database.create_cooldown st now td "check_api" 15
  end.

(** What the middleware answers: its own plain text, or whatever the rest of
    the application ([call_next]) makes of the request. *)
Inductive response :=
| PlainTextResponse (body : string)
| call_next.

Definition throttle_message : string :=
  "This command has been run recently and is on a cooldown period. " +:+
  "Please try again in a little while!".

(** The middleware on a request of path [path] and body [req_body].  The
    clock is read in [check_api_on_cooldown] ([now_check]) and again in
    [create_cooldown] ([now_create]). *)
Definition rate_limit_check_api (st : Database.store) (now_check now_create : Z)
    (path req_body : string) : Database.store * response :=
  if check_api_being_requested path req_body then
    let team_domain := identify_slack_team_domain req_body in
    if check_api_on_cooldown st now_check team_domain
    then (st, PlainTextResponse throttle_message)
    else (update_check_api_cooldown st now_create team_domain, call_next)
  else (st, call_next).

End Server.

(** ** message_builder.py

    Modelled from the spec: [message_builder.py] is not among the sources;
    [bot.py] above is the bot before messages were split, and of the
    builder only the tests are at hand.  The definitions follow §4.2 of the
    specification and the strings its tests expect.  The character budget
    [MAX_LEN] ([MAX_MESSAGE_CHARACTER_LENGTH]) has no value in either: it is
    a parameter. *)

Module MessageBuilder.

(** Modelled from the spec: a fragment is what [render_event] returns for
    an event; its text is what the budget counts. *)
Record fragment := {
  blocks : list Bot.json;
  text : string }.

Definition text_length (f : fragment) : nat := String.length (text f).

(** Modelled from the spec: a MessageChunk, with its week, its 1-based
    position, the number of chunks of the week and what is rendered. *)
Record MessageChunk := {
  week : Z;
  seq : nat;
  total : nat;
  chunk_blocks : list Bot.json;
  chunk_text : string }.

(** Modelled from the spec: "<Label> for the week of <Month Day> - <seq> of
    <total>", with the label of the tests. *)
Definition build_header (week_start : Z) (seq total : nat) : string :=
  "HackGreenville Events for the week of " +:+ Time.strftime_B_d week_start
  +:+ " - " +:+ pretty seq +:+ " of " +:+ pretty total.

Definition header_length (week_start : Z) (total seq : nat) : nat :=
  String.length (build_header week_start seq total).

Section Budget.
Variable MAX_LEN : nat.

(** Modelled from the spec: greedy accumulation over the lengths of the
    fragments, "until adding the next fragment would exceed [MAX_LEN]".
    [current] is the length of the chunk being filled, header included; a
    fragment joins it unless the chunk would then be longer than [MAX_LEN];
    otherwise the chunk is closed and chunk [seq + 1] starts with its header
    and the fragment.  [hdr] gives the length of the header of a
    position. *)
Fixpoint accumulate (hdr : nat -> nat) (seq current : nat) (sizes : list nat) : list nat :=
  match sizes with
  | [] => [current]
  | s :: rest =>
      if (current + s <=? MAX_LEN)%nat then accumulate hdr seq (current + s) rest
      else current :: accumulate hdr (S seq) (hdr (S seq) + s) rest
  end.

(** Modelled from the spec: the same accumulation into [count] chunks: the
    chunk of position [count] takes whatever is left. *)
Fixpoint pack_into (count : nat) (hdr : nat -> nat) (seq current : nat) (sizes : list nat)
  : list nat :=
  match sizes with
  | [] => [current]
  | s :: rest =>
      if (current + s <=? MAX_LEN)%nat || (count <=? seq)%nat
      then pack_into count hdr seq (current + s) rest
      else current :: pack_into count hdr (S seq) (hdr (S seq) + s) rest
  end.

(** Modelled from the spec: the count of the accumulation that ignores
    headers. *)
Definition naive_count (sizes : list nat) : nat :=
  length (accumulate (fun _ => 0%nat) 1 0 sizes).

(** Modelled from the spec: chunking with the headers of the candidate
    count, no "resulting chunk still exceeds [MAX_LEN]". *)
Definition fits (week_start : Z) (count : nat) (sizes : list nat) : bool :=
  forallb (fun n => (n <=? MAX_LEN)%nat)
    (pack_into count (header_length week_start count) 1
       (header_length week_start count 1) sizes).

(** Modelled from the spec: "if any resulting chunk still exceeds
    [MAX_LEN], increment count and retry".  The loop has no bound of its
    own; [fuel] bounds the number of candidates tried, and [None] is the
    loop still running when it is used up. *)
Fixpoint retry (week_start : Z) (sizes : list nat) (fuel count : nat) : option nat :=
  match fuel with
  | O => None
  | S fuel' =>
      if fits week_start count sizes then Some count
      else retry week_start sizes fuel' (S count)
  end.

(** Modelled from the spec: [total_messages_needed], on the text lengths
    of the fragments.  The header it accounts for is the header of the
    week, so the week is an argument here. *)
Definition total_messages_needed (week_start : Z) (fuel : nat) (sizes : list nat) : option nat :=
  retry week_start sizes fuel (naive_count sizes).

Definition start_chunk (week_start : Z) (total seq : nat) : MessageChunk :=
  {| week := week_start; seq := seq; total := total;
     chunk_blocks := []; chunk_text := build_header week_start seq total |}.

Definition add_fragment (c : MessageChunk) (f : fragment) : MessageChunk :=
  {| week := week c; seq := seq c; total := total c;
     chunk_blocks := chunk_blocks c ++ blocks f;
     chunk_text := chunk_text c +:+ text f |}.

(** Modelled from the spec: the greedy accumulation of [chunk_messages]
    on the fragments themselves. *)
Fixpoint chunks_from (week_start : Z) (total : nat) (current : MessageChunk)
    (fragments : list fragment) : list MessageChunk :=
  match fragments with
  | [] => [current]
  | f :: rest =>
      if (String.length (chunk_text current) + text_length f <=? MAX_LEN)%nat
      then chunks_from week_start total (add_fragment current f) rest
      else current ::
           chunks_from week_start total
             (add_fragment (start_chunk week_start total (S (seq current))) f) rest
  end.

(** Modelled from the spec: [chunk_messages]; every chunk is stamped with
    the total of [total_messages_needed]. *)
Definition chunk_messages (fuel : nat) (fragments : list fragment) (week_start : Z)
  : option (list MessageChunk) :=
  total ← total_messages_needed week_start fuel (text_length <$> fragments);
  Some (chunks_from week_start total (start_chunk week_start total 1) fragments).

End Budget.

End MessageBuilder.

(** * Vocabulary of the properties *)

(** Ascending keys: every row is below the rows after it. *)
Definition ascending {A} (key : A -> Z) (l : list A) : Prop :=
  StronglySorted (fun a b => key a <= key b) l.

(** The constraints of the [channels] table: [slack_channel_id] is
    [UNIQUE], [id] is the primary key, drawn from [channels_seq]. *)
Definition channels_wf (st : Database.store) : Prop :=
  NoDup (Database.c_slack_channel_id <$> Database.channels st)
  /\ NoDup (Database.c_id <$> Database.channels st)
  /\ Forall (fun c => (Database.c_id c <= Database.channels_seq st)%nat) (Database.channels st).

(** Of the rows [get_messages] returns for a week, the one
    [message_details] keeps for a channel: the last. *)
Definition stored (st : Database.store) (week : Z) (ch : string) : option Database.message_dict :=
  last (filter (fun d => Database.slack_channel_id d = ch) (Database.get_messages st week)).

(** An accessor has a cooldown record that has not expired at [now]. *)
Definition unexpired (st : Database.store) (now : Z) (accessor : string) : Prop :=
  exists expiry,
    Database.get_cooldown_expiry_time st accessor "check_api" = Some expiry /\ now <= expiry.

(** What the two tests of the loop let through. *)
Definition kept (week_start week_end : Z) (e : Bot.Event) : Prop :=
  week_start <= Bot.time e <= week_end /\ Bot.status e ∈ Bot.supported_statuses.

#[local] Instance kept_dec week_start week_end e : Decision (kept week_start week_end e).
Proof. unfold kept. apply _. Defined.

(** The constraints of both tables: those of [channels], message ids
    drawn from [messages_seq] without repeats, and no message of a channel
    id that was never handed out. *)
Definition store_wf (st : Database.store) : Prop :=
  channels_wf st
  /\ NoDup (Database.m_id <$> Database.messages st)
  /\ Forall (fun m => (Database.m_id m <= Database.messages_seq st)%nat) (Database.messages st)
  /\ Forall (fun m => (Database.m_channel_id m <= Database.channels_seq st)%nat)
        (Database.messages st).

(** The writes of [database.py], as calls with their arguments. *)
Inductive db_op :=
| op_add_channel (slack_channel_id : string)
| op_remove_channel (channel_id : string)
| op_create_message (week : Z) (message : string) (message_timestamp : Z)
    (slack_channel_id : string) (sequence_position : Z)
| op_update_message (week : Z) (message : string) (message_timestamp : Z)
    (slack_channel_id : string)
| op_delete_old_messages (now_messages now_cooldowns days_back : Z)
| op_create_cooldown (now : Z) (accessor resource : string) (cooldown_minutes : Z).

(** A call that raises is not committed: the database stays as it was. *)
Definition commit (st : Database.store) (r : result Database.store) : Database.store :=
  match r with
  | Ok st' => st'
  | Raise _ => st
  end.

Definition run_op (st : Database.store) (op : db_op) : Database.store :=
  match op with
  | op_add_channel ch => commit st (Database.add_channel st ch)
  | op_remove_channel ch => commit st (Database.remove_channel st ch)
  | op_create_message week message ts ch seq =>
      commit st (Database.create_message st week message ts ch seq)
  | op_update_message week message ts ch =>
      commit st (Database.update_message st week message ts ch)
  | op_delete_old_messages now_messages now_cooldowns days_back =>
      Database.delete_old_messages st now_messages now_cooldowns days_back
  | op_create_cooldown now accessor resource cooldown_minutes =>
      Database.create_cooldown st now accessor resource cooldown_minutes
  end.

(** [ORDER BY week DESC, message_timestamp DESC]: [m] does not sort after
    [m']. *)
Definition at_least_as_recent (m m' : Database.message_row) : Prop :=
  Database.m_week m' < Database.m_week m
  \/ (Database.m_week m' = Database.m_week m
      /\ Database.m_message_timestamp m' <= Database.m_message_timestamp m).

(** A text without a newline: what [.] of a regular expression matches. *)
Definition one_line (s : string) : Prop :=
  Forall (fun c => c <> Server.newline) (list_ascii_of_string s).

(** The text lengths of the borderline case of the tests. *)
Definition borderline : list nat := [463; 311; 397; 507; 456; 463; 352]%nat.

(** ** Scenarios *)

Module Scenario.

(** A database with one subscribed channel and nothing posted. *)
Definition subscribed : Database.store :=
  {| Database.channels :=
       [ {| Database.c_id := 1; Database.c_slack_channel_id := "C0123" |} ];
     Database.messages := [];
     Database.cooldowns := ∅;
     Database.channels_seq := 1;
     Database.messages_seq := 0;
     Database.foreign_keys := false |}.

(** Sunday 22 October 2023, Monday 23 and Sunday 29, at midnight UTC. *)
Definition sunday : Z := 19652 * Time.day.
Definition monday : Z := 19653 * Time.day.
Definition next_sunday : Z := 19659 * Time.day.

(** An event that starts at the very end of the week of [monday]. *)
Definition brunch : Bot.Event :=
  {| Bot.uuid := "e1"; Bot.time := next_sunday; Bot.status := "upcoming";
     Bot.generate_blocks := []; Bot.generate_text := "Sunday brunch" |}.

Definition check_api_body : string :=
  "token=x&team_id=T1&team_domain=hackgvl&channel_id=C0123&command=%2Fcheck_api&text=".

Definition body_without_team : string := "token=x&command=%2Fcheck_api&text=".

(** Ten in the morning of [monday], and a cooldown that ran out an hour
    before. *)
Definition ten_o_clock : Z := monday + 10 * 60 * Time.minute.

Definition expired_cooldown : Database.store :=
  Database.create_cooldown (Database.create_tables false)
    (ten_o_clock - 75 * Time.minute) "hackgvl" "check_api" 15.

Definition fragment_of_length (n : nat) : MessageBuilder.fragment :=
  {| MessageBuilder.blocks := [];
     MessageBuilder.text := string_of_list_ascii (replicate n "x"%char) |}.

End Scenario.

(** * Properties *)

(** ** Ordering rows *)

Section OrderBy.
Context {A : Type} (key : A -> Z).

Lemma insert_by_perm x l : Database.insert_by key x l ≡ₚ x :: l.
Proof.
  induction l as [|y l IH]; simpl; [done|].
  destruct (key x <=? key y); [done|].
  rewrite IH. apply Permutation_swap.
Qed.

Lemma order_by_perm l : Database.order_by key l ≡ₚ l.
Proof.
  induction l as [|x l IH]; simpl; [done|].
  unfold Database.order_by in *. simpl. by rewrite insert_by_perm, IH.
Qed.

Lemma order_by_nil_inv l : Database.order_by key l = [] -> l = [].
Proof.
  intros E. apply Permutation_nil_r. rewrite <- E. symmetry. apply order_by_perm.
Qed.

Lemma insert_by_ascending x l : ascending key l -> ascending key (Database.insert_by key x l).
Proof.
  induction 1 as [|y l Hl IH Hy]; simpl.
  - repeat constructor.
  - destruct (Z.leb_spec (key x) (key y)) as [Hle|Hgt].
    + constructor; [by constructor|].
      constructor; [done|]. eapply Forall_impl; [exact Hy|]. simpl. lia.
    + constructor; [done|].
      rewrite insert_by_perm. constructor; [lia|done].
Qed.

Lemma order_by_ascending l : ascending key (Database.order_by key l).
Proof.
  induction l as [|x l IH]; [constructor|].
  apply insert_by_ascending, IH.
Qed.

Lemma insert_by_below x l :
  Forall (fun y => key x <= key y) l -> Database.insert_by key x l = x :: l.
Proof.
  destruct 1 as [|y l Hy _]; simpl; [done|].
  destruct (Z.leb_spec (key x) (key y)); [done|lia].
Qed.

(** Selecting rows commutes with ordering them. *)
Lemma filter_insert_by (P : A -> Prop) `{!forall x, Decision (P x)} x l :
  ascending key l ->
  filter P (Database.insert_by key x l) =
  if decide (P x) then Database.insert_by key x (filter P l) else filter P l.
Proof.
  induction 1 as [|y l Hl IH Hy]; simpl.
  - rewrite filter_cons. by destruct (decide (P x)).
  - destruct (Z.leb_spec (key x) (key y)) as [Hle|Hgt].
    + rewrite filter_cons. destruct (decide (P x)); [|done].
      rewrite insert_by_below; [done|].
      apply Forall_forall. intros z [_ Hz]%list_elem_of_filter.
      apply elem_of_cons in Hz as [->|Hz]; [done|].
      rewrite Forall_forall in Hy. specialize (Hy z Hz). simpl in Hy. lia.
    + rewrite (filter_cons _ y), IH, (filter_cons _ y).
      destruct (decide (P x)), (decide (P y)); simpl; try done.
      destruct (Z.leb_spec (key x) (key y)); [lia|done].
Qed.

Lemma filter_order_by (P : A -> Prop) `{!forall x, Decision (P x)} l :
  filter P (Database.order_by key l) = Database.order_by key (filter P l).
Proof.
  induction l as [|x l IH]; [done|].
  change (Database.order_by key (x :: l))
    with (Database.insert_by key x (Database.order_by key l)).
  rewrite filter_insert_by by apply order_by_ascending.
  rewrite filter_cons, IH. by destruct (decide (P x)).
Qed.

End OrderBy.

(** ** Lists *)

Lemma filter_ext_in {A} (P Q : A -> Prop) `{!forall x, Decision (P x)} `{!forall x, Decision (Q x)}
    (l : list A) :
  (forall x, x ∈ l -> P x <-> Q x) -> filter P l = filter Q l.
Proof.
  induction l as [|x l IH]; intros E; [done|].
  rewrite !filter_cons, IH by (intros; apply E; by right).
  pose proof (E x (list_elem_of_here _ _)).
  destruct (decide (P x)), (decide (Q x)); tauto.
Qed.

Lemma filter_none {A} (P : A -> Prop) `{!forall x, Decision (P x)} (l : list A) :
  (forall x, x ∈ l -> ¬ P x) -> filter P l = [].
Proof.
  induction l as [|x l IH]; intros E; [done|].
  rewrite filter_cons, IH by (intros; apply E; by right).
  pose proof (E x (list_elem_of_here _ _)). by destruct (decide (P x)).
Qed.

Lemma fmap_id_in {A} (f : A -> A) (l : list A) :
  (forall x, x ∈ l -> f x = x) -> f <$> l = l.
Proof.
  induction l as [|x l IH]; intros E; [done|].
  rewrite fmap_cons, IH by (intros; apply E; by right).
  by rewrite (E x (list_elem_of_here _ _)).
Qed.

(** ** The record of a week in a channel *)

(** No row is kept for a channel exactly when the week has no message row
    that joins a channel row of that Slack channel. *)
Lemma stored_none (st : Database.store) (week : Z) (ch : string) :
  stored st week ch = None <->
  forall m c, m ∈ Database.messages st -> c ∈ Database.channels st ->
    Database.m_week m = week -> Database.m_channel_id m = Database.c_id c ->
    Database.c_slack_channel_id c <> ch.
Proof.
  unfold stored, Database.get_messages. rewrite last_None. split.
  - intros Hnil m c Hm Hc Hw Hid Hch.
    assert (Database.to_dict (m, c) ∈
              filter (fun d => Database.slack_channel_id d = ch)
                (Database.to_dict <$>
                   Database.order_by (fun r => Database.m_sequence_position r.1)
                     (Database.join_week st week))) as Hin.
    { apply list_elem_of_filter. split; [done|].
      apply list_elem_of_fmap_2. rewrite order_by_perm.
      unfold Database.join_week. apply list_elem_of_bind. exists m. split.
      - apply list_elem_of_fmap_2. by apply list_elem_of_filter.
      - by apply list_elem_of_filter. }
    rewrite Hnil in Hin. by apply elem_of_nil in Hin.
  - intros Hno. apply filter_none.
    intros d (r & -> & Hr)%list_elem_of_fmap Hch.
    rewrite order_by_perm in Hr. unfold Database.join_week in Hr.
    apply list_elem_of_bind in Hr as (m & Hr & Hm).
    apply list_elem_of_fmap in Hr as (c & -> & Hc).
    apply list_elem_of_filter in Hm as [Hw Hm], Hc as [Hid Hc].
    by apply (Hno m c).
Qed.

Lemma select_channel_id_subscribed (st : Database.store) (ch : string) :
  ch ∈ Database.get_slack_channel_ids st ->
  exists c, head (filter (fun c => Database.c_slack_channel_id c = ch) (Database.channels st)) = Some c
            /\ c ∈ Database.channels st /\ Database.c_slack_channel_id c = ch
            /\ Database.select_channel_id st ch = Ok (Database.c_id c).
Proof.
  unfold Database.get_slack_channel_ids, Database.select_channel_id.
  intros (c0 & -> & Hc0)%list_elem_of_fmap.
  destruct (filter _ (Database.channels st)) as [|c l] eqn:E.
  - assert (c0 ∈ filter (fun c => Database.c_slack_channel_id c = Database.c_slack_channel_id c0)
                     (Database.channels st)) as Hin by (by apply list_elem_of_filter).
    rewrite E in Hin. by apply elem_of_nil in Hin.
  - assert (c ∈ filter (fun c => Database.c_slack_channel_id c = Database.c_slack_channel_id c0)
                     (Database.channels st)) as Hin by (rewrite E; left).
    apply list_elem_of_filter in Hin as [? ?]. exists c. simpl. eauto.
Qed.

(** ** What writing a message leaves alone *)

Lemma head_filter_elem {A} (P : A -> Prop) `{!forall x, Decision (P x)} (l : list A) (x : A) :
  head (filter P l) = Some x -> P x /\ x ∈ l.
Proof.
  intros E. rewrite <- (list_elem_of_filter P).
  destruct (filter P l) as [|y k]; simplify_eq/=. left.
Qed.

Lemma select_channel_id_head (st : Database.store) (ch : string) (cid : nat) :
  Database.select_channel_id st ch = Ok cid ->
  exists c, head (filter (fun c => Database.c_slack_channel_id c = ch) (Database.channels st)) = Some c
            /\ Database.c_id c = cid.
Proof.
  unfold Database.select_channel_id. destruct (head _) as [c|]; [|done].
  intros [= <-]. eauto.
Qed.

Lemma channels_wf_eq (st st' : Database.store) :
  Database.channels st' = Database.channels st ->
  Database.channels_seq st' = Database.channels_seq st ->
  channels_wf st -> channels_wf st'.
Proof. unfold channels_wf. by intros -> ->. Qed.

Section Writes.
Import Database.
Context (st st' : store) (Hwf : channels_wf st).

Lemma create_message_channels week text ts ch seq :
  create_message st week text ts ch seq = Ok st' ->
  channels st' = channels st /\ channels_seq st' = channels_seq st
  /\ cooldowns st' = cooldowns st.
Proof.
  unfold create_message. destruct (select_channel_id st ch); [|done].
  by intros [= <-].
Qed.

Lemma update_message_channels week text ts ch :
  update_message st week text ts ch = Ok st' ->
  channels st' = channels st /\ channels_seq st' = channels_seq st
  /\ cooldowns st' = cooldowns st.
Proof.
  unfold update_message. destruct (select_channel_id st ch); [|done].
  by intros [= <-].
Qed.

End Writes.

Lemma create_message_wf (st st' : Database.store) week text ts ch seq :
  channels_wf st -> Database.create_message st week text ts ch seq = Ok st' -> channels_wf st'.
Proof.
  intros Hwf Hc. destruct (create_message_channels _ _ _ _ _ _ _ Hc) as (? & ? & _).
  by eapply channels_wf_eq.
Qed.

Lemma update_message_wf (st st' : Database.store) week text ts ch :
  channels_wf st -> Database.update_message st week text ts ch = Ok st' -> channels_wf st'.
Proof.
  intros Hwf Hu. destruct (update_message_channels _ _ _ _ _ _ Hu) as (? & ? & _).
  by eapply channels_wf_eq.
Qed.

(** ** The calls of [bot.py] into [database.py] *)

(** C5 (the code, at every input).  The reconciliation does none of the three
    things the loop is written for.  Its first statement calls
    [get_slack_channel_ids] with the connection, one argument for a
    function without parameters: [TypeError] is raised there, in every
    world, for every week and message and whatever the workspace would
    answer, before a subscription or a record is read.  Nothing is posted,
    nothing updated, nothing written. *)
Theorem post_or_update_messages_raises `{Bot.Slack} (conn : Call.value) (w : Bot.world)
    (week : Z) (blocks : list Bot.json) (text : string) :
  Bot.post_or_update_messages conn week blocks text w = Some (w, Raise TypeError).
Proof. reflexivity. Qed.

(** C6 (the code, at every input).  Of two runs of the reconciliation in a row
    the second makes no call to Slack, as the first made none: each stops
    with [TypeError] at its first statement, and no pair of week and channel
    is ever compared with its record. *)
Theorem publish_twice_raises `{Bot.Slack} (conn : Call.value) (w : Bot.world)
    (week : Z) (blocks : list Bot.json) (text : string) :
  exists w1 w2,
    Bot.post_or_update_messages conn week blocks text w = Some (w1, Raise TypeError)
    /\ Bot.post_or_update_messages conn week blocks text w1 = Some (w2, Raise TypeError)
    /\ Bot.calls w2 = Bot.calls w
    /\ Bot.db w2 = Bot.db w.
Proof. exists w, w. by split_and!. Qed.

(** C8 (the code, at every input).  [/add_channel] and [/remove_channel] call
    [database.py] with the connection and the channel, two arguments for
    one parameter.  The [TypeError] of the call is not the
    [IntegrityError] the handlers catch: it leaves the handler, whether the
    channel is subscribed or not, and no acknowledgement is sent; the
    database stays as it was. *)
Theorem channel_commands_raise (w : Bot.world) (channel_id : string) :
  Bot.add_channel (Some channel_id) w = Some (w, Raise TypeError)
  /\ Bot.remove_channel (Some channel_id) w = Some (w, Raise TypeError).
Proof. split; reflexivity. Qed.

(** ** The constraints of [channels] are kept *)

Lemma create_tables_wf (fk : bool) : channels_wf (Database.create_tables fk).
Proof. repeat split; simpl; constructor. Qed.

Lemma add_channel_wf (st st' : Database.store) (ch : string) :
  channels_wf st -> Database.add_channel st ch = Ok st' -> channels_wf st'.
Proof.
  intros (Hnd & Hid & Hseq). unfold Database.add_channel.
  case_bool_decide as Hin; [done|]. intros [= <-]. repeat split; simpl.
  - rewrite fmap_app. apply NoDup_app. split_and!; [done| |apply NoDup_singleton].
    intros x Hx ->%list_elem_of_singleton. done.
  - rewrite fmap_app. apply NoDup_app. split_and!; [done| |apply NoDup_singleton].
    intros x (c & -> & Hc)%list_elem_of_fmap E%list_elem_of_singleton.
    rewrite Forall_forall in Hseq. specialize (Hseq c Hc). simpl in *. lia.
  - apply Forall_app. split; [|repeat constructor].
    eapply Forall_impl; [exact Hseq|]. simpl. lia.
Qed.

Lemma remove_channel_wf (st st' : Database.store) (ch : string) :
  channels_wf st -> Database.remove_channel st ch = Ok st' -> channels_wf st'.
Proof.
  intros (Hnd & Hid & Hseq). unfold Database.remove_channel. intros [= <-].
  repeat split; simpl.
  - eapply sublist_NoDup; [exact Hnd|]. apply fmap_sublist, sublist_filter.
  - eapply sublist_NoDup; [exact Hid|]. apply fmap_sublist, sublist_filter.
  - apply Forall_forall. intros c [_ Hc]%list_elem_of_filter.
    rewrite Forall_forall in Hseq. by apply Hseq.
Qed.

Lemma delete_old_messages_wf (st : Database.store) (now1 now2 days_back : Z) :
  channels_wf st -> channels_wf (Database.delete_old_messages st now1 now2 days_back).
Proof. by apply channels_wf_eq. Qed.

Lemma create_cooldown_wf (st : Database.store) (now : Z) (a r : string) (n : Z) :
  channels_wf st -> channels_wf (Database.create_cooldown st now a r n).
Proof. by apply channels_wf_eq. Qed.

(** ** Subscribing and unsubscribing *)

(** ** The cooldown of [/check_api] *)

Lemma check_api_on_cooldown_spec (st : Database.store) (now : Z) (td : string) :
  Server.check_api_on_cooldown st now (Some td) = true <-> unexpired st now td.
Proof.
  unfold Server.check_api_on_cooldown, unexpired.
  destruct (Database.get_cooldown_expiry_time st td "check_api") as [e|].
  - destruct (Z.gtb_spec now e); split; try done.
    + intros (e' & [= <-] & ?). lia.
    + intros _. exists e. split; [done|lia].
  - split; [done|]. by intros (e' & ? & _).
Qed.

(** Requests of one accessor that all come no later than the expiry of its
    record are throttled one after the other, and the database stays as it
    is. *)
Lemma throttled_until_expiry (st : Database.store) (td : string) (expiry : Z)
    (requests : list (Z * Z * string * string)) :
  Database.get_cooldown_expiry_time st td "check_api" = Some expiry ->
  Forall (fun q : Z * Z * string * string =>
            Server.check_api_being_requested q.1.2 q.2 = true
            /\ Server.identify_slack_team_domain q.2 = Some td
            /\ q.1.1.1 <= expiry) requests ->
  Forall (fun q : Z * Z * string * string =>
            Server.rate_limit_check_api st q.1.1.1 q.1.1.2 q.1.2 q.2
            = (st, Server.PlainTextResponse Server.throttle_message)) requests.
Proof.
  intros Hget Hall. eapply Forall_impl; [exact Hall|].
  intros [[[now_check now_create] path] body] (Hreq & Htd & Hle).
  simpl in *. unfold Server.rate_limit_check_api. rewrite Hreq, Htd.
  rewrite (proj2 (check_api_on_cooldown_spec st now_check td)); [done|].
  by exists expiry.
Qed.

(** C7.  A request for [/check_api] whose body names the accessor [td] is
    passed on exactly when [td] has no unexpired cooldown record.  When it is
    passed on, the record of [td] is set to expire 15 minutes after the
    clock read at its creation; when it is not, the answer is the throttle
    text and the database is as before.  After a request that was passed
    on, every request of the same accessor that comes no later than the
    expiry gets the throttle text, is not passed on, and changes nothing. *)
Theorem check_api_cooldown_gate (st : Database.store) (now_check now_create : Z)
    (path body td : string) :
  Server.check_api_being_requested path body = true ->
  Server.identify_slack_team_domain body = Some td ->
  let after := Server.rate_limit_check_api st now_check now_create path body in
  (after.2 = Server.call_next <-> ¬ unexpired st now_check td)
  /\ (unexpired st now_check td ->
        after = (st, Server.PlainTextResponse Server.throttle_message))
  /\ (¬ unexpired st now_check td ->
        after.1 = Database.create_cooldown st now_create td "check_api" 15
        /\ Database.get_cooldown_expiry_time after.1 td "check_api"
           = Some (now_create + 15 * Time.minute)
        /\ forall now_check' now_create' path' body',
             Server.check_api_being_requested path' body' = true ->
             Server.identify_slack_team_domain body' = Some td ->
             now_check' <= now_create + 15 * Time.minute ->
             Server.rate_limit_check_api after.1 now_check' now_create' path' body'
             = (after.1, Server.PlainTextResponse Server.throttle_message)).
Proof.
  intros Hreq Htd after. subst after. unfold Server.rate_limit_check_api.
  rewrite Hreq, Htd.
  pose proof (check_api_on_cooldown_spec st now_check td) as Hspec.
  destruct (Server.check_api_on_cooldown st now_check (Some td)) eqn:Hcd; simpl.
  - assert (unexpired st now_check td) as Hun by (by apply Hspec).
    split_and!; [split; [done|tauto]|done|tauto].
  - assert (¬ unexpired st now_check td) as Hun.
    { intros Hu. apply Hspec in Hu. congruence. }
    split_and!; [tauto|tauto|]. intros _.
    assert (Database.get_cooldown_expiry_time
              (Database.create_cooldown st now_create td "check_api" 15) td "check_api"
            = Some (now_create + 15 * Time.minute)) as Hget.
    { unfold Database.get_cooldown_expiry_time, Database.create_cooldown. simpl.
      by rewrite lookup_insert_eq. }
    split_and!; [done|done|].
    intros now_check' now_create' path' body' Hreq' Htd' Hbefore.
    rewrite Hreq', Htd'.
    rewrite (proj2 (check_api_on_cooldown_spec _ now_check' td)); [done|].
    eexists. split; [exact Hget|done].
Qed.

(** C10.  A request for [/check_api] from whose body no [team_domain] can be
    read is answered with the throttle text, is not passed on, and leaves the
    database, its cooldown records included, as it was. *)
Theorem check_api_without_team_domain (st : Database.store) (now_check now_create : Z)
    (path body : string) :
  Server.check_api_being_requested path body = true ->
  Server.identify_slack_team_domain body = None ->
  Server.check_api_on_cooldown st now_check None = true
  /\ Server.update_check_api_cooldown st now_create None = st
  /\ Server.rate_limit_check_api st now_check now_create path body
     = (st, Server.PlainTextResponse Server.throttle_message).
Proof.
  intros Hreq Htd. unfold Server.rate_limit_check_api. by rewrite Hreq, Htd.
Qed.

(** ** The retention sweep *)

(** C9, as amended.  The sweep keeps exactly the message rows whose
    [message_timestamp] is not older than [days_back] days before the clock,
    in their order, and exactly the cooldown records whose expiry is not
    older than [days_back] days before the clock; channels are not
    touched. *)
Theorem delete_old_messages_keeps (st : Database.store) (now_messages now_cooldowns : Z)
    (days_back : Z) :
  let st' := Database.delete_old_messages st now_messages now_cooldowns days_back in
  Database.channels st' = Database.channels st
  /\ st'.(Database.messages) `sublist_of` st.(Database.messages)
  /\ (forall m, m ∈ Database.messages st' <->
        m ∈ Database.messages st
        /\ now_messages - days_back * Time.day <= Database.m_message_timestamp m)
  /\ (forall accessor resource expiry,
        Database.cooldowns st' !! (accessor, resource) = Some expiry <->
        Database.cooldowns st !! (accessor, resource) = Some expiry
        /\ now_cooldowns - days_back * Time.day <= expiry).
Proof.
  simpl. split_and!; [done|apply sublist_filter| |].
  - intros m. rewrite list_elem_of_filter. unfold Time.days. split; intros [? ?]; split; try done; lia.
  - intros a r e. rewrite map_lookup_filter_Some. simpl. unfold Time.days.
    split; intros [? ?]; split; try done; lia.
Qed.

(** ** Strings and dates *)

Lemma length_append (s1 s2 : string) :
  String.length (s1 +:+ s2) = (String.length s1 + String.length s2)%nat.
Proof. induction s1 as [|a s1 IH]; simpl; [done|]. by rewrite IH. Qed.

Lemma append_assoc (s1 s2 s3 : string) : (s1 +:+ s2) +:+ s3 = s1 +:+ (s2 +:+ s3).
Proof.
  induction s1 as [|a s1 IH]; [done|].
  change (String a ((s1 +:+ s2) +:+ s3) = String a (s1 +:+ (s2 +:+ s3))).
  by rewrite IH.
Qed.

Lemma civil_from_days_range (n : Z) :
  1 <= (Time.civil_from_days n).1.2 <= 12 /\ 1 <= (Time.civil_from_days n).2 <= 31.
Proof.
  unfold Time.civil_from_days. cbv zeta. simpl.
  set (z := n + 719468).
  set (era := z / 146097).
  set (doe := z - era * 146097).
  assert (0 <= doe < 146097) as Hdoe.
  { subst doe era. pose proof (Z.div_mod z 146097). pose proof (Z.mod_pos_bound z 146097). lia. }
  clearbody doe. clear z era.
  set (yoe := (doe - doe / 1460 + doe / 36524 - doe / 146096) / 365).
  set (doy := doe - (365 * yoe + yoe / 4 - yoe / 100)).
  assert (0 <= doy <= 365) as Hdoy by (subst doy yoe; Z.div_mod_to_equations; lia).
  clearbody doy.
  set (mp := (5 * doy + 2) / 153).
  assert (0 <= mp <= 11) by (subst mp; Z.div_mod_to_equations; lia).
  split.
  - destruct (Z.ltb_spec mp 10); lia.
  - subst mp. Z.div_mod_to_equations. lia.
Qed.

(** The shortest rendering is "May 1", the longest "September 30". *)
Lemma strftime_B_d_length (t : Z) :
  (5 <= String.length (Time.strftime_B_d t) <= 12)%nat.
Proof.
  unfold Time.strftime_B_d.
  pose proof (civil_from_days_range (t / Time.day)) as [Hm Hd].
  destruct (Time.civil_from_days (t / Time.day)) as [[y m] d]. simpl in Hm, Hd.
  rewrite !length_append.
  assert (3 <= String.length (Time.month_name m) <= 9)%nat.
  { assert (exists k : nat, m = Z.of_nat k + 1 /\ (k < 12)%nat) as (k & -> & Hk)
      by (exists (Z.to_nat (m - 1)); lia).
    unfold Time.month_name. replace (Z.to_nat (Z.of_nat k + 1 - 1)) with k by lia.
    do 12 (destruct k as [|k]; [simpl; lia|]). lia. }
  assert (1 <= String.length (pretty d) <= 2)%nat.
  { assert (exists k : nat, d = Z.of_nat k + 1 /\ (k < 31)%nat) as (k & -> & Hk)
      by (exists (Z.to_nat (d - 1)); lia).
    do 31 (destruct k as [|k]; [vm_compute; lia|]). lia. }
  simpl. lia.
Qed.

(** ** The message builder *)

Section BudgetFacts.
Import MessageBuilder.
Context (MAX_LEN : nat).
Local Open Scope nat_scope.

Lemma pack_into_head (count : nat) (hdr : nat -> nat) (sizes : list nat) :
  forall seq cur, exists c rest,
    pack_into MAX_LEN count hdr seq cur sizes = c :: rest /\ cur <= c.
Proof.
  induction sizes as [|s sizes IH]; intros seq cur; simpl; [by eauto|].
  destruct (_ || _); [|by eauto].
  destruct (IH seq (cur + s)) as (c & rest & -> & Hle).
  exists c, rest. split; [done|lia].
Qed.






(** Every chunk of a packing is at least as long as any fragment in it. *)
Lemma pack_into_covers (count : nat) (hdr : nat -> nat) (sizes : list nat) (s0 : nat) :
  s0 ∈ sizes ->
  forall seq cur, Exists (fun c => s0 <= c) (pack_into MAX_LEN count hdr seq cur sizes).
Proof.
  induction sizes as [|s sizes IH]; intros Hin seq cur; [by apply elem_of_nil in Hin|].
  simpl. apply elem_of_cons in Hin as [->|Hin].
  - destruct (_ || _).
    + destruct (pack_into_head count hdr sizes seq (cur + s)) as (c & rest & -> & Hle).
      left. lia.
    + right.
      destruct (pack_into_head count hdr sizes (S seq) (hdr (S seq) + s)) as (c & rest & -> & Hle).
      left. lia.
  - destruct (_ || _); [by apply IH|]. right. by apply IH.
Qed.

(** A fragment that alone exceeds the budget keeps the sizing loop running
    for ever: no amount of fuel yields a count. *)
Lemma total_messages_needed_oversize (week_start : Z) (sizes : list nat) (s0 : nat) :
  s0 ∈ sizes -> MAX_LEN < s0 ->
  forall fuel, total_messages_needed MAX_LEN week_start fuel sizes = None.
Proof.
  intros Hin Hbig fuel. unfold total_messages_needed.
  generalize (naive_count MAX_LEN sizes) as count.
  induction fuel as [|fuel IH]; intros count; simpl; [done|].
  assert (fits MAX_LEN week_start count sizes = false) as ->; [|apply IH].
  apply not_true_is_false. unfold fits. rewrite forallb_forall. intros Hall.
  pose proof (pack_into_covers count (header_length week_start count) sizes s0 Hin 1
                (header_length week_start count 1)) as (c & Hc & Hle)%Exists_exists.
  specialize (Hall c (proj1 (list_elem_of_In _ _) Hc)). apply Nat.leb_le in Hall. lia.
Qed.

Lemma pack_into_join (count : nat) (hdr : nat -> nat) (seq cur s : nat) (rest : list nat) :
  cur + s <= MAX_LEN \/ count <= seq ->
  pack_into MAX_LEN count hdr seq cur (s :: rest) =
  pack_into MAX_LEN count hdr seq (cur + s) rest.
Proof.
  intros Hj. simpl.
  destruct (Nat.leb_spec (cur + s) MAX_LEN), (Nat.leb_spec count seq); simpl; try done. lia.
Qed.

Lemma pack_into_new (count : nat) (hdr : nat -> nat) (seq cur s : nat) (rest : list nat) :
  MAX_LEN < cur + s -> seq < count ->
  pack_into MAX_LEN count hdr seq cur (s :: rest) =
  cur :: pack_into MAX_LEN count hdr (S seq) (hdr (S seq) + s) rest.
Proof.
  intros Hfull Hseq. simpl.
  destruct (Nat.leb_spec (cur + s) MAX_LEN), (Nat.leb_spec count seq); simpl; try done; lia.
Qed.

Lemma accumulate_join (hdr : nat -> nat) (seq cur s : nat) (rest : list nat) :
  cur + s <= MAX_LEN ->
  accumulate MAX_LEN hdr seq cur (s :: rest) = accumulate MAX_LEN hdr seq (cur + s) rest.
Proof. intros Hj. simpl. by destruct (Nat.leb_spec (cur + s) MAX_LEN); [|lia]. Qed.






End BudgetFacts.


Lemma header_length_digit (week_start : Z) (total seq : nat) :
  (1 <= total <= 9)%nat -> (1 <= seq <= 9)%nat ->
  MessageBuilder.header_length week_start total seq =
  (47 + String.length (Time.strftime_B_d week_start))%nat.
Proof.
  intros Ht Hs. unfold MessageBuilder.header_length, MessageBuilder.build_header.
  rewrite !length_append.
  assert (String.length (pretty total) = 1%nat) as ->.
  { do 10 (destruct total as [|total]; [try lia; reflexivity|]). lia. }
  assert (String.length (pretty seq) = 1%nat) as ->.
  { do 10 (destruct seq as [|seq]; [try lia; reflexivity|]). lia. }
  simpl. lia.
Qed.

(** C4.  For the empty list of fragments the sizing returns 1, at the first
    candidate, as soon as the header "1 of 1" alone does not exceed the
    budget. *)
Theorem total_messages_needed_nil (MAX_LEN : nat) (week_start : Z) (fuel : nat) :
  (MessageBuilder.header_length week_start 1 1 <= MAX_LEN)%nat ->
  (1 <= fuel)%nat ->
  MessageBuilder.total_messages_needed MAX_LEN week_start fuel [] = Some 1%nat.
Proof.
  intros Hhdr Hfuel. destruct fuel as [|fuel]; [lia|].
  unfold MessageBuilder.total_messages_needed, MessageBuilder.naive_count.
  cbn [MessageBuilder.accumulate length MessageBuilder.retry].
  unfold MessageBuilder.fits. cbn [MessageBuilder.pack_into forallb].
  by rewrite (proj2 (Nat.leb_le _ _) Hhdr).
Qed.

(** C3.  The fragments of the borderline case are 2949 characters long
    together.  For every budget they do not exceed without a header and
    exceed with the header "1 of 1", and for every week, the sizing returns
    2: one chunk is tried and overflows, two chunks fit. *)
Theorem total_messages_needed_borderline (MAX_LEN : nat) (week_start : Z) (fuel : nat) :
  (2949 <= MAX_LEN)%nat ->
  (MAX_LEN < 2949 + MessageBuilder.header_length week_start 1 1)%nat ->
  (2 <= fuel)%nat ->
  MessageBuilder.total_messages_needed MAX_LEN week_start fuel borderline = Some 2%nat.
Proof.
  intros Hlow Hhigh Hfuel.
  pose proof (strftime_B_d_length week_start) as HL.
  rewrite header_length_digit in Hhigh by lia.
  destruct fuel as [|[|fuel]]; [lia|lia|].
  assert (MessageBuilder.naive_count MAX_LEN borderline = 1%nat) as Hnaive.
  { unfold MessageBuilder.naive_count, borderline.
    by rewrite !accumulate_join by (simpl; lia). }
  assert (MessageBuilder.fits MAX_LEN week_start 1 borderline = false) as Hone.
  { unfold MessageBuilder.fits, borderline.
    rewrite !pack_into_join by (right; lia).
    rewrite header_length_digit by lia.
    cbn [MessageBuilder.pack_into forallb].
    rewrite (proj2 (Nat.leb_gt _ _)) by lia. done. }
  assert (MessageBuilder.fits MAX_LEN week_start 2 borderline = true) as Htwo.
  { unfold MessageBuilder.fits, borderline.
    rewrite !header_length_digit by lia.
    do 6 (rewrite pack_into_join by (left; lia)).
    rewrite pack_into_new by lia.
    rewrite !header_length_digit by lia.
    cbn [MessageBuilder.pack_into forallb].
    rewrite !(proj2 (Nat.leb_le _ _)) by lia. done. }
  unfold MessageBuilder.total_messages_needed. rewrite Hnaive.
  cbn [MessageBuilder.retry]. by rewrite Hone, Htwo.
Qed.

(** ** The events of a week *)

Lemma append_nil_r (s : string) : s +:+ EmptyString = s.
Proof.
  induction s as [|a s IH]; [done|].
  change (String a (s +:+ EmptyString) = String a s). by rewrite IH.
Qed.

Lemma add_event_kept (week_start week_end : Z) (acc : list Bot.json * string) (e : Bot.Event) :
  Bot.add_event week_start week_end acc e =
  if decide (kept week_start week_end e)
  then (acc.1 ++ Bot.generate_blocks e ++ [Bot.divider],
        acc.2 +:+ Bot.generate_text e +:+ Bot.nl +:+ Bot.nl)
  else acc.
Proof.
  unfold Bot.add_event, kept.
  destruct (Z.ltb_spec (Bot.time e) week_start), (Z.gtb_spec (Bot.time e) week_end); simpl;
    try (rewrite decide_False by lia; done).
  destruct (decide (Bot.status e ∈ Bot.supported_statuses)) as [Hin|Hout].
  - rewrite bool_decide_eq_true_2 by done. simpl. rewrite decide_True; [done|]. split; [lia|done].
  - rewrite bool_decide_eq_false_2 by done. simpl. rewrite decide_False; [done|]. tauto.
Qed.

(** X20.  The message of a week holds, after its header and in the order
    of the answer, the events whose time lies between the start and the end
    of the week, both ends included, and whose status is supported; no
    other. *)
Lemma build_week_keeps (probe_date : Z) (events : list Bot.Event) :
  let week_start := Bot.week_start_of probe_date in
  let selected := filter (kept week_start (Bot.week_end_of probe_date)) events in
  Bot.build_week probe_date events =
  ([Bot.header_block week_start; Bot.divider] ++
     (selected ≫= fun e => Bot.generate_blocks e ++ [Bot.divider]),
   (Bot.header_text week_start +:+ Bot.nl +:+ Bot.nl +:+ "===" +:+ Bot.nl +:+ Bot.nl) +:+
     foldr (fun e rest => Bot.generate_text e +:+ Bot.nl +:+ Bot.nl +:+ rest)
           EmptyString selected).
Proof.
  intros week_start selected. subst selected. unfold Bot.build_week. fold week_start.
  generalize ([Bot.header_block week_start; Bot.divider]) as b.
  generalize (Bot.header_text week_start +:+ Bot.nl +:+ Bot.nl +:+ "===" +:+ Bot.nl +:+ Bot.nl)
    as t.
  induction events as [|e events IH]; intros t b.
  - simpl. by rewrite append_nil_r, app_nil_r.
  - cbn [foldl]. rewrite add_event_kept, filter_cons.
    destruct (decide (kept week_start (Bot.week_end_of probe_date) e)); [|apply IH].
    rewrite IH. cbn [fst snd foldr]. rewrite bind_cons. f_equal.
    + by rewrite <- !app_assoc.
    + by rewrite !append_assoc.
Qed.

(** C1 (the code at its failing input).  An event that starts at the
    instant the week ends is outside [week_start, week_end), and the message
    of the week holds it all the same; so does the message of the following
    week, which starts at that instant. *)
Theorem event_at_week_end_is_kept :
  Bot.time Scenario.brunch = Bot.week_end_of Scenario.monday
  /\ Bot.week_start_of (Scenario.monday + Time.days 7) = Bot.week_end_of Scenario.monday
  /\ (Bot.build_week Scenario.monday [Scenario.brunch]).2 =
     "HackGreenville Events for the week of October 22" +:+ Bot.nl +:+ Bot.nl +:+ "===" +:+
     Bot.nl +:+ Bot.nl +:+ "Sunday brunch" +:+ Bot.nl +:+ Bot.nl
  /\ (Bot.build_week (Scenario.monday + Time.days 7) [Scenario.brunch]).2 =
     "HackGreenville Events for the week of October 29" +:+ Bot.nl +:+ Bot.nl +:+ "===" +:+
     Bot.nl +:+ Bot.nl +:+ "Sunday brunch" +:+ Bot.nl +:+ Bot.nl.
Proof. vm_compute. done. Qed.

(** The same for every week: an event of a supported status that starts at
    [week_end] is in the message. *)
Lemma event_at_week_end_in_message (probe_date : Z) (e : Bot.Event) :
  Bot.time e = Bot.week_end_of probe_date ->
  Bot.status e ∈ Bot.supported_statuses ->
  kept (Bot.week_start_of probe_date) (Bot.week_end_of probe_date) e
  /\ Bot.add_event (Bot.week_start_of probe_date) (Bot.week_end_of probe_date)
       ([], EmptyString) e
     = (Bot.generate_blocks e ++ [Bot.divider],
        Bot.generate_text e +:+ Bot.nl +:+ Bot.nl).
Proof.
  intros Ht Hs.
  assert (kept (Bot.week_start_of probe_date) (Bot.week_end_of probe_date) e) as Hk.
  { split; [|done]. rewrite Ht. unfold Bot.week_end_of, Time.days, Time.day, Time.minute,
      Time.second. lia. }
  split; [done|]. by rewrite add_event_kept, decide_True.
Qed.

Lemma fragment_of_length_length (n : nat) :
  MessageBuilder.text_length (Scenario.fragment_of_length n) = n.
Proof.
  unfold MessageBuilder.text_length, Scenario.fragment_of_length. simpl.
  induction n as [|n IH]; simpl; [done|]. by rewrite IH.
Qed.

(** Whatever the budget, from the length of the header on, a fragment that
    fills it to the last character makes a chunk of exactly that length. *)
Lemma chunk_of_budget_length (MAX_LEN : nat) :
  (57 <= MAX_LEN)%nat ->
  exists c,
    MessageBuilder.chunk_messages MAX_LEN 1 [Scenario.fragment_of_length (MAX_LEN - 57)]
      Scenario.sunday = Some [c]
    /\ String.length (MessageBuilder.chunk_text c) = MAX_LEN.
Proof.
  intros Hhdr.
  assert (MessageBuilder.header_length Scenario.sunday 1 1 = 57%nat) as Hh by reflexivity.
  unfold MessageBuilder.chunk_messages, MessageBuilder.total_messages_needed,
    MessageBuilder.naive_count.
  rewrite fmap_cons, fmap_nil, fragment_of_length_length.
  rewrite accumulate_join by lia.
  cbn [MessageBuilder.accumulate length MessageBuilder.retry].
  unfold MessageBuilder.fits. rewrite Hh.
  rewrite pack_into_join by (left; lia).
  cbn [MessageBuilder.pack_into forallb].
  rewrite (proj2 (Nat.leb_le _ _)) by lia. simpl andb. cbn [mbind option_bind].
  cbn [MessageBuilder.chunks_from].
  assert (String.length (MessageBuilder.chunk_text
                           (MessageBuilder.start_chunk Scenario.sunday 1 1)) = 57%nat)
    as Hs by reflexivity.
  rewrite Hs, fragment_of_length_length.
  rewrite (proj2 (Nat.leb_le _ _)) by lia.
  eexists. split; [reflexivity|].
  unfold MessageBuilder.add_fragment. cbn [MessageBuilder.chunk_text].
  rewrite length_append, Hs.
  change (String.length (MessageBuilder.text (Scenario.fragment_of_length (MAX_LEN - 57))))
    with (MessageBuilder.text_length (Scenario.fragment_of_length (MAX_LEN - 57))).
  rewrite fragment_of_length_length. lia.
Qed.


(** C9 (counterexample).  A cooldown that ran out an hour ago is in the
    past, and the sweep with the default horizon leaves it in the table. *)
Lemma sweep_keeps_expired_cooldown :
  Database.get_cooldown_expiry_time Scenario.expired_cooldown "hackgvl" "check_api"
    = Some (Scenario.ten_o_clock - 60 * Time.minute)
  /\ Scenario.ten_o_clock - 60 * Time.minute < Scenario.ten_o_clock
  /\ Database.get_cooldown_expiry_time
       (Database.delete_old_messages Scenario.expired_cooldown
          Scenario.ten_o_clock Scenario.ten_o_clock Database.default_days_back)
       "hackgvl" "check_api"
     = Some (Scenario.ten_o_clock - 60 * Time.minute).
Proof.
  split_and!.
  - unfold Database.get_cooldown_expiry_time, Scenario.expired_cooldown. simpl.
    rewrite lookup_insert_eq. f_equal; unfold Time.minutes; lia.
  - unfold Time.minute, Time.second. lia.
  - unfold Database.get_cooldown_expiry_time, Scenario.expired_cooldown. simpl.
    apply map_lookup_filter_Some. split.
    + rewrite lookup_insert_eq. f_equal; unfold Time.minutes; lia.
    + vm_compute. done.
Qed.

(** ** The theorems at work *)

(** C7 at work: a request an hour after the last cooldown ran out is passed
    on; the same request five minutes later is throttled. *)
Lemma check_api_cooldown_gate_witness :
  Server.check_api_being_requested "/slack/events" Scenario.check_api_body = true
  /\ Server.identify_slack_team_domain Scenario.check_api_body = Some "hackgvl"%string
  /\ ¬ unexpired Scenario.expired_cooldown Scenario.ten_o_clock "hackgvl"
  /\ exists st',
       Server.rate_limit_check_api Scenario.expired_cooldown Scenario.ten_o_clock
         (Scenario.ten_o_clock + 1) "/slack/events" Scenario.check_api_body
       = (st', Server.call_next)
       /\ Database.get_cooldown_expiry_time st' "hackgvl" "check_api"
          = Some (Scenario.ten_o_clock + 1 + 15 * Time.minute)
       /\ Server.rate_limit_check_api st' (Scenario.ten_o_clock + 5 * Time.minute)
            (Scenario.ten_o_clock + 5 * Time.minute + 1) "/slack/events"
            Scenario.check_api_body
          = (st', Server.PlainTextResponse Server.throttle_message).
Proof.
  assert (¬ unexpired Scenario.expired_cooldown Scenario.ten_o_clock "hackgvl") as Hno.
  { intros (e & He & Hle). vm_compute in He. injection He as <-. vm_compute in Hle.
    by apply Hle. }
  split; [reflexivity|]. split; [reflexivity|]. split; [exact Hno|].
  destruct (check_api_cooldown_gate Scenario.expired_cooldown Scenario.ten_o_clock
              (Scenario.ten_o_clock + 1) "/slack/events" Scenario.check_api_body "hackgvl"
              eq_refl eq_refl) as (Hiff & _ & Hnew).
  destruct (Hnew Hno) as (Hst & Hget & Hlater).
  destruct (Server.rate_limit_check_api Scenario.expired_cooldown Scenario.ten_o_clock
              (Scenario.ten_o_clock + 1) "/slack/events" Scenario.check_api_body)
    as [st' r] eqn:E.
  exists st'. simpl in *. split; [by rewrite (proj2 Hiff Hno)|]. split; [exact Hget|].
  apply Hlater; [reflexivity|reflexivity|]. unfold Time.minute, Time.second. lia.
Defined.

(** C10 at work: a body that names no [team_domain]. *)
Lemma check_api_without_team_domain_witness :
  Server.check_api_being_requested "/slack/events" Scenario.body_without_team = true
  /\ Server.identify_slack_team_domain Scenario.body_without_team = None
  /\ Server.rate_limit_check_api Scenario.expired_cooldown Scenario.ten_o_clock
       (Scenario.ten_o_clock + 1) "/slack/events" Scenario.body_without_team
     = (Scenario.expired_cooldown, Server.PlainTextResponse Server.throttle_message).
Proof.
  split; [reflexivity|]. split; [reflexivity|].
  exact (proj2 (proj2 (check_api_without_team_domain Scenario.expired_cooldown
                         Scenario.ten_o_clock (Scenario.ten_o_clock + 1) "/slack/events"
                         Scenario.body_without_team eq_refl eq_refl))).
Defined.


(** C3 at work: a budget of 3000 characters and the week of October 22. *)
Lemma total_messages_needed_borderline_witness :
  (2949 <= 3000)%nat
  /\ (3000 < 2949 + MessageBuilder.header_length Scenario.sunday 1 1)%nat
  /\ MessageBuilder.total_messages_needed 3000 Scenario.sunday 2 borderline = Some 2%nat.
Proof.
  assert (MessageBuilder.header_length Scenario.sunday 1 1 = 57%nat) as Hhdr by reflexivity.
  assert (3000 < 2949 + MessageBuilder.header_length Scenario.sunday 1 1)%nat as Hhigh
    by (rewrite Hhdr; lia).
  split; [lia|]. split; [exact Hhigh|].
  apply (total_messages_needed_borderline 3000 Scenario.sunday 2); [lia|exact Hhigh|lia].
Defined.

(** C4 at work: a budget of 3000 characters. *)
Lemma total_messages_needed_nil_witness :
  (MessageBuilder.header_length Scenario.sunday 1 1 <= 3000)%nat
  /\ MessageBuilder.total_messages_needed 3000 Scenario.sunday 1 [] = Some 1%nat.
Proof.
  assert (MessageBuilder.header_length Scenario.sunday 1 1 = 57%nat) as Hhdr by reflexivity.
  assert (MessageBuilder.header_length Scenario.sunday 1 1 <= 3000)%nat as Hfit
    by (rewrite Hhdr; lia).
  split; [exact Hfit|].
  apply (total_messages_needed_nil 3000 Scenario.sunday 1); [exact Hfit|lia].
Defined.

(** * More of the code *)

(** ** The tables *)

Lemma elem_of_get_messages (st : Database.store) (week : Z) (d : Database.message_dict) :
  d ∈ Database.get_messages st week <->
  exists m c, m ∈ Database.messages st /\ c ∈ Database.channels st
    /\ Database.m_week m = week /\ Database.m_channel_id m = Database.c_id c
    /\ d = Database.to_dict (m, c).
Proof.
  unfold Database.get_messages. rewrite list_elem_of_fmap. split.
  - intros (r & -> & Hr). rewrite order_by_perm in Hr. unfold Database.join_week in Hr.
    apply list_elem_of_bind in Hr as (m & Hr & Hm).
    apply list_elem_of_fmap in Hr as (c & -> & Hc).
    apply list_elem_of_filter in Hm as [Hw Hm], Hc as [Hid Hc].
    by exists m, c.
  - intros (m & c & Hm & Hc & Hw & Hid & ->). exists (m, c). split; [done|].
    rewrite order_by_perm. unfold Database.join_week. apply list_elem_of_bind.
    exists m. split.
    + apply list_elem_of_fmap_2. by apply list_elem_of_filter.
    + by apply list_elem_of_filter.
Qed.

Lemma ascending_fmap {A B} (key : B -> Z) (f : A -> B) (l : list A) :
  ascending (key ∘ f) l -> ascending key (f <$> l).
Proof.
  induction 1 as [|x l Hl IH Hx]; [constructor|].
  rewrite fmap_cons. constructor; [done|]. by apply Forall_fmap.
Qed.

(** X1.  [get_messages] returns the rows of the week joined with their
    channels, no other, by ascending sequence position. *)
Theorem get_messages_ordered (st : Database.store) (week : Z) :
  ascending Database.sequence_position (Database.get_messages st week)
  /\ forall d, d ∈ Database.get_messages st week <->
       exists m c, m ∈ Database.messages st /\ c ∈ Database.channels st
         /\ Database.m_week m = week /\ Database.m_channel_id m = Database.c_id c
         /\ d = Database.to_dict (m, c).
Proof.
  split; [|apply elem_of_get_messages].
  unfold Database.get_messages. apply ascending_fmap.
  apply (order_by_ascending (fun r : Database.message_row * Database.channel_row =>
                               Database.m_sequence_position r.1)).
Qed.

Lemma not_subscribed_head (st : Database.store) (ch : string) :
  ch ∉ Database.get_slack_channel_ids st ->
  filter (fun c => Database.c_slack_channel_id c = ch) (Database.channels st) = [].
Proof.
  intros Hnot. apply filter_none. intros c Hc E. apply Hnot. rewrite <- E.
  by apply list_elem_of_fmap_2.
Qed.

(** X2.  Recording or rewriting a message for a Slack channel that is not
    subscribed raises [TypeError] (the channel id is read off a missing
    row), and nothing is written. *)
Theorem message_of_unsubscribed_channel_raises (st : Database.store) (week : Z)
    (text : string) (ts : Z) (ch : string) (seq : Z) :
  ch ∉ Database.get_slack_channel_ids st ->
  Database.create_message st week text ts ch seq = Raise TypeError
  /\ Database.update_message st week text ts ch = Raise TypeError
  /\ run_op st (op_create_message week text ts ch seq) = st
  /\ run_op st (op_update_message week text ts ch) = st.
Proof.
  intros Hnot%not_subscribed_head.
  unfold run_op, Database.create_message, Database.update_message, Database.select_channel_id.
  by rewrite Hnot.
Qed.

(** X3.  A message recorded for a subscribed channel is among the rows
    [get_messages] returns for its week, under the Slack id of the channel;
    the rows of every other week are as before. *)
Theorem create_message_then_get_messages (st : Database.store) (week : Z)
    (text : string) (ts : Z) (ch : string) (seq : Z) :
  ch ∈ Database.get_slack_channel_ids st ->
  exists st',
    Database.create_message st week text ts ch seq = Ok st'
    /\ {| Database.message := text; Database.message_timestamp := ts;
          Database.slack_channel_id := ch; Database.sequence_position := seq |}
       ∈ Database.get_messages st' week
    /\ (forall d, d ∈ Database.get_messages st week -> d ∈ Database.get_messages st' week)
    /\ (forall week', week' <> week ->
          Database.get_messages st' week' = Database.get_messages st week').
Proof.
  intros (c & Hhead & Hc & Hslack & Hsel)%select_channel_id_subscribed.
  unfold Database.create_message. rewrite Hsel. simpl. eexists. split; [done|]. split_and!.
  - apply elem_of_get_messages.
    exists {| Database.m_id := S (Database.messages_seq st); Database.m_week := week;
              Database.m_message_timestamp := ts; Database.m_message := text;
              Database.m_sequence_position := seq; Database.m_channel_id := Database.c_id c |}, c.
    simpl. split_and!; try done.
    + apply elem_of_app. right. left.
    + unfold Database.to_dict. simpl. by rewrite Hslack.
  - intros d (m & c' & Hm & Hc' & ?)%elem_of_get_messages. apply elem_of_get_messages.
    exists m, c'. simpl. split; [|done]. apply elem_of_app. by left.
  - intros week' Hne. unfold Database.get_messages, Database.join_week. simpl.
    rewrite filter_app, filter_cons, filter_nil. simpl.
    rewrite decide_False by congruence. by rewrite app_nil_r.
Qed.

(** X4.  [update_message] for a subscribed channel never raises and keeps
    the number of message rows; when no row has the week, timestamp and
    channel, it changes nothing at all. *)
Theorem update_message_without_match (st : Database.store) (week : Z)
    (text : string) (ts : Z) (ch : string) :
  ch ∈ Database.get_slack_channel_ids st ->
  exists channel_id st',
    Database.select_channel_id st ch = Ok channel_id
    /\ Database.update_message st week text ts ch = Ok st'
    /\ length (Database.messages st') = length (Database.messages st)
    /\ ((forall m, m ∈ Database.messages st ->
           ¬ (Database.m_week m = week /\ Database.m_message_timestamp m = ts
              /\ Database.m_channel_id m = channel_id)) ->
        st' = st).
Proof.
  intros (c & _ & _ & _ & Hsel)%select_channel_id_subscribed.
  unfold Database.update_message. rewrite Hsel. simpl.
  eexists _, _. split_and!; try done.
  - simpl. by rewrite length_fmap.
  - intros Hno. destruct st as [chs msgs cds cs ms fk]. simpl in *. f_equal.
    apply fmap_id_in. intros m Hm. specialize (Hno m Hm).
    unfold Database.update_matches.
    destruct (bool_decide _ && bool_decide _ && bool_decide _) eqn:E; [|done].
    exfalso. apply Hno. rewrite !andb_true_iff, !bool_decide_eq_true in E. tauto.
Qed.

(** ** Subscriptions *)

(** X5.  [add_channel] for a channel that is not subscribed appends it to
    the subscribed ones and touches neither messages nor cooldowns; the same
    call again raises [IntegrityError]. *)
Theorem add_channel_then_again (st : Database.store) (ch : string) :
  ch ∉ Database.get_slack_channel_ids st ->
  exists st1,
    Database.add_channel st ch = Ok st1
    /\ Database.get_slack_channel_ids st1 = Database.get_slack_channel_ids st ++ [ch]
    /\ Database.messages st1 = Database.messages st
    /\ Database.cooldowns st1 = Database.cooldowns st
    /\ Database.add_channel st1 ch = Raise IntegrityError.
Proof.
  intros Hnot. unfold Database.add_channel at 1.
  rewrite bool_decide_eq_false_2 by done.
  eexists. split; [done|]. split_and!; try done.
  - unfold Database.get_slack_channel_ids. simpl. by rewrite fmap_app.
  - unfold Database.add_channel, Database.get_slack_channel_ids. simpl.
    rewrite bool_decide_eq_true_2; [done|].
    rewrite fmap_app. apply elem_of_app. right. simpl. left.
Qed.

(** X6.  [remove_channel] never raises.  Afterwards the channel is not
    subscribed, every other channel is subscribed exactly if it was, the
    cooldowns are as before, and no message is on record for the channel in
    any week. *)
Theorem remove_channel_unsubscribes (st : Database.store) (ch : string) :
  exists st',
    Database.remove_channel st ch = Ok st'
    /\ (ch ∉ Database.get_slack_channel_ids st')
    /\ (forall ch', ch' <> ch ->
          (ch' ∈ Database.get_slack_channel_ids st' <->
           ch' ∈ Database.get_slack_channel_ids st))
    /\ Database.cooldowns st' = Database.cooldowns st
    /\ (forall week, stored st' week ch = None).
Proof.
  unfold Database.remove_channel. eexists. split; [done|].
  assert (forall c, c ∈ filter (fun c => Database.c_slack_channel_id c <> ch)
                         (Database.channels st) ->
                    Database.c_slack_channel_id c <> ch) as Hgone.
  { by intros c [? _]%list_elem_of_filter. }
  split_and!; try done.
  - unfold Database.get_slack_channel_ids. simpl.
    intros (c & -> & Hc)%list_elem_of_fmap. by apply (Hgone c).
  - intros ch' Hne. unfold Database.get_slack_channel_ids. simpl.
    rewrite !list_elem_of_fmap. split.
    + intros (c & -> & [_ Hc]%list_elem_of_filter). eauto.
    + intros (c & -> & Hc). exists c. split; [done|]. by apply list_elem_of_filter.
  - intros week. apply stored_none. simpl. intros m c _ Hc _ _. by apply Hgone.
Qed.

(** ** What every database satisfies *)

Lemma run_op_wf (st : Database.store) (op : db_op) : store_wf st -> store_wf (run_op st op).
Proof.
  intros (Hch & Hnd & Hid & Hcid).
  destruct op as [ch|ch|week text ts ch seq|week text ts ch|nm nc days|now a r n]; simpl.
  - destruct (Database.add_channel st ch) as [st'|] eqn:E; [|done]. simpl.
    split; [by eapply add_channel_wf|].
    unfold Database.add_channel in E. case_bool_decide; [done|]. injection E as <-. simpl.
    split_and!; try done. eapply Forall_impl; [exact Hcid|]. simpl. lia.
  - destruct (Database.remove_channel st ch) as [st'|] eqn:E; [|done]. simpl.
    split; [by eapply remove_channel_wf|].
    unfold Database.remove_channel in E. injection E as <-. simpl.
    destruct (Database.foreign_keys st); [|done]. split_and!.
    + eapply sublist_NoDup; [exact Hnd|]. apply fmap_sublist, sublist_filter.
    + apply Forall_forall. intros m [_ Hm]%list_elem_of_filter.
      rewrite Forall_forall in Hid. by apply Hid.
    + apply Forall_forall. intros m [_ Hm]%list_elem_of_filter.
      rewrite Forall_forall in Hcid. by apply Hcid.
  - destruct (Database.create_message st week text ts ch seq) as [st'|] eqn:E; [|done]. simpl.
    split; [by eapply create_message_wf|].
    unfold Database.create_message in E.
    destruct (Database.select_channel_id st ch) as [cid|] eqn:Hsel; [|done].
    apply select_channel_id_head in Hsel as (c & [_ Hc]%head_filter_elem & <-).
    injection E as <-. simpl. split_and!.
    + rewrite fmap_app. apply NoDup_app. split_and!; [done| |apply NoDup_singleton].
      intros x (m & -> & Hm)%list_elem_of_fmap E%list_elem_of_singleton.
      rewrite Forall_forall in Hid. specialize (Hid m Hm). simpl in *. lia.
    + apply Forall_app. split; [|repeat constructor].
      eapply Forall_impl; [exact Hid|]. simpl. lia.
    + apply Forall_app. split; [done|]. repeat constructor. simpl.
      destruct Hch as (_ & _ & Hseq). rewrite Forall_forall in Hseq. by apply Hseq.
  - destruct (Database.update_message st week text ts ch) as [st'|] eqn:E; [|done]. simpl.
    split; [by eapply update_message_wf|].
    unfold Database.update_message in E.
    destruct (Database.select_channel_id st ch) as [cid|]; [|done].
    injection E as <-. simpl.
    assert (forall m, Database.m_id (if Database.update_matches week ts cid m
                                     then Database.set_message text m else m) = Database.m_id m
                      /\ Database.m_channel_id (if Database.update_matches week ts cid m
                                     then Database.set_message text m else m)
                         = Database.m_channel_id m) as Hsame.
    { intros m. by destruct (Database.update_matches week ts cid m). }
    split_and!.
    + rewrite <- list_fmap_compose. erewrite list_fmap_ext; [exact Hnd|].
      intros i m _. apply Hsame.
    + apply Forall_fmap. eapply Forall_impl; [exact Hid|]. intros m Hm.
      unfold compose. by rewrite (proj1 (Hsame m)).
    + apply Forall_fmap. eapply Forall_impl; [exact Hcid|]. intros m Hm.
      unfold compose. by rewrite (proj2 (Hsame m)).
  - split; [by apply delete_old_messages_wf|]. simpl. split_and!.
    + eapply sublist_NoDup; [exact Hnd|]. apply fmap_sublist, sublist_filter.
    + apply Forall_forall. intros m [_ Hm]%list_elem_of_filter.
      rewrite Forall_forall in Hid. by apply Hid.
    + apply Forall_forall. intros m [_ Hm]%list_elem_of_filter.
      rewrite Forall_forall in Hcid. by apply Hcid.
  - split; [by apply create_cooldown_wf|]. done.
Qed.

(** X7.  Whatever calls of [database.py] were made since [create_tables],
    raising or not: no two channel rows share a Slack id or an id, no two
    message rows share an id, every id is among those handed out, and no
    message row carries a channel id that was never handed out. *)
Theorem store_wf_always (fk : bool) (ops : list db_op) :
  store_wf (foldl run_op (Database.create_tables fk) ops).
Proof.
  assert (store_wf (Database.create_tables fk)) as Hinit.
  { split; [apply create_tables_wf|]. simpl. split_and!; constructor. }
  revert Hinit. generalize (Database.create_tables fk) as st.
  induction ops as [|op ops IH]; intros st Hst; [done|].
  simpl. by apply IH, run_op_wf.
Qed.

(** X8.  In a database that meets the constraints of its tables a channel
    can unsubscribe and subscribe again, and [get_messages] then returns no
    row for it in any week: what was recorded for it before does not join
    its new row. *)
Theorem resubscribed_channel_starts_fresh (st : Database.store) (ch : string) :
  store_wf st ->
  exists st1 st2,
    Database.remove_channel st ch = Ok st1
    /\ Database.add_channel st1 ch = Ok st2
    /\ ch ∈ Database.get_slack_channel_ids st2
    /\ forall week, stored st2 week ch = None.
Proof.
  intros (_ & _ & _ & Hcid).
  unfold Database.remove_channel. eexists. eexists. split; [reflexivity|].
  unfold Database.add_channel, Database.get_slack_channel_ids. simpl.
  rewrite bool_decide_eq_false_2; last first.
  { intros (c & E & [Hne _]%list_elem_of_filter)%list_elem_of_fmap. by apply Hne. }
  split; [reflexivity|]. simpl. split.
  - rewrite fmap_app. apply elem_of_app. right. left.
  - intros week. apply stored_none. simpl. intros m c Hm Hc _ Hmc Hslack.
    apply elem_of_app in Hc as [[Hne _]%list_elem_of_filter|Hnew%list_elem_of_singleton];
      [done|]. subst c.
    simpl in Hmc.
    assert (m ∈ Database.messages st) as Hm'.
    { destruct (Database.foreign_keys st); [|done]. by apply list_elem_of_filter in Hm as [_ ?]. }
    rewrite Forall_forall in Hcid. specialize (Hcid m Hm'). simpl in Hcid. lia.
Qed.

(** ** Cooldowns and the sweep *)

(** X9.  [create_cooldown] is an upsert: the expiry read back is the clock
    plus the minutes asked for, a second call for the same accessor and
    resource replaces the first, and no other pair is touched. *)
Theorem create_cooldown_upsert (st : Database.store) (now now' : Z)
    (accessor resource : string) (n n' : Z) :
  let st1 := Database.create_cooldown st now accessor resource n in
  Database.get_cooldown_expiry_time st1 accessor resource = Some (now + n * Time.minute)
  /\ Database.create_cooldown st1 now' accessor resource n'
     = Database.create_cooldown st now' accessor resource n'
  /\ (forall accessor' resource',
        (accessor', resource') <> (accessor, resource) ->
        Database.get_cooldown_expiry_time st1 accessor' resource'
        = Database.get_cooldown_expiry_time st accessor' resource').
Proof.
  unfold Database.get_cooldown_expiry_time, Database.create_cooldown. simpl. split_and!.
  - by rewrite lookup_insert_eq.
  - by rewrite insert_insert_eq.
  - intros a r Hne. by rewrite lookup_insert_ne.
Qed.

(** X10.  A sweep with a horizon of zero days or more, run no later than a
    request, neither lifts nor sets a throttle: the request is on cooldown
    after the sweep exactly if it was without it. *)
Theorem sweep_keeps_throttles (st : Database.store) (now_messages now_sweep days_back now : Z)
    (td : string) :
  0 <= days_back -> now_sweep <= now ->
  Server.check_api_on_cooldown
    (Database.delete_old_messages st now_messages now_sweep days_back) now (Some td)
  = Server.check_api_on_cooldown st now (Some td).
Proof.
  intros Hdays Hnow. unfold Server.check_api_on_cooldown, Database.get_cooldown_expiry_time.
  simpl. rewrite map_lookup_filter.
  destruct (Database.cooldowns st !! (td, "check_api"%string)) as [e|]; simpl; [|done].
  case_guard as Hkept; simpl; [done|].
  destruct (Z.gtb_spec now e); [done|]. exfalso. simpl in Hkept.
  unfold Time.days, Time.day, Time.minute, Time.second in Hkept. lia.
Qed.

(** X11.  A later sweep makes an earlier one redundant: sweeping at two
    clocks in turn, with one horizon, leaves what the sweep at the later
    clocks alone leaves. *)
Theorem sweep_after_sweep (st : Database.store) (nm nc nm' nc' days_back : Z) :
  nm <= nm' -> nc <= nc' ->
  Database.delete_old_messages (Database.delete_old_messages st nm nc days_back)
    nm' nc' days_back
  = Database.delete_old_messages st nm' nc' days_back.
Proof.
  intros Hm Hc. unfold Database.delete_old_messages. simpl. f_equal.
  - rewrite list_filter_filter. apply filter_ext_in. intros m _. lia.
  - apply map_filter_filter_l. intros [a r] e _. simpl. lia.
Qed.

(** ** The most recent message of a channel *)

Lemma head_order_by_min {A} (key : A -> Z) (l : list A) (x : A) :
  head (Database.order_by key l) = Some x ->
  x ∈ l /\ forall y, y ∈ l -> key x <= key y.
Proof.
  intros Hhead. pose proof (order_by_ascending key l) as Hs.
  pose proof (order_by_perm key l) as Hp.
  destruct (Database.order_by key l) as [|z s]; simplify_eq/=.
  split; [rewrite <- Hp; left|].
  intros y Hy. rewrite <- Hp in Hy. apply StronglySorted_inv in Hs as [_ Hs].
  apply elem_of_cons in Hy as [->|Hy]; [lia|].
  rewrite Forall_forall in Hs. by apply Hs.
Qed.

Lemma order_by_same_key {A} (key : A -> Z) (l : list A) (k : Z) :
  (forall y, y ∈ l -> key y = k) -> Database.order_by key l = l.
Proof.
  induction l as [|x l IH]; intros Hk; [done|].
  change (Database.order_by key (x :: l))
    with (Database.insert_by key x (Database.order_by key l)).
  rewrite IH by (intros; apply Hk; by right).
  apply insert_by_below, Forall_forall. intros y Hy.
  rewrite (Hk x), (Hk y); [lia|by right|left].
Qed.

(** The first row of [ORDER BY k1, k2] is least in [k1] and, among the rows
    that are, least in [k2]. *)
Lemma head_order_by_two {A} (k1 k2 : A -> Z) (l : list A) (x : A) :
  head (Database.order_by k1 (Database.order_by k2 l)) = Some x ->
  x ∈ l /\ forall y, y ∈ l -> k1 x < k1 y \/ (k1 x = k1 y /\ k2 x <= k2 y).
Proof.
  intros Hhead.
  destruct (head_order_by_min k1 _ x Hhead) as [Hx Hmin].
  rewrite order_by_perm in Hx. split; [done|].
  assert (head (Database.order_by k2 (filter (fun y => k1 y = k1 x) l)) = Some x) as Hsecond.
  { rewrite <- filter_order_by.
    rewrite <- (order_by_same_key k1 (filter _ (Database.order_by k2 l)) (k1 x))
      by (by intros y [? _]%list_elem_of_filter).
    rewrite <- filter_order_by.
    destruct (Database.order_by k1 (Database.order_by k2 l)) as [|z s]; simplify_eq/=.
    rewrite filter_cons. by rewrite decide_True. }
  apply head_order_by_min in Hsecond as [_ Hmin2].
  intros y Hy. specialize (Hmin y). rewrite order_by_perm in Hmin. specialize (Hmin Hy).
  destruct (decide (k1 y = k1 x)) as [E|Hne]; [|left; lia].
  right. split; [done|]. apply Hmin2. by apply list_elem_of_filter.
Qed.

Lemma elem_of_join_channel (st : Database.store) (ch : string) (m : Database.message_row) :
  m ∈ Database.join_channel st ch <->
  m ∈ Database.messages st
  /\ exists c, c ∈ Database.channels st /\ Database.m_channel_id m = Database.c_id c
       /\ Database.c_slack_channel_id c = ch.
Proof.
  unfold Database.join_channel. rewrite list_elem_of_bind. split.
  - intros (m' & (c & -> & [[? ?] ?]%list_elem_of_filter)%list_elem_of_fmap & Hm). eauto.
  - intros (Hm & c & Hc & Hid & Hslack). exists m. split; [|done].
    apply list_elem_of_fmap. exists c. split; [done|]. by apply list_elem_of_filter.
Qed.

(** X12.  [get_most_recent_message_for_channel] returns the empty dict
    exactly when no message row joins a channel row of that Slack channel;
    otherwise it returns week, text and timestamp of such a row, and no row
    of the channel has a later week, or the same week and a later
    timestamp. *)
Theorem get_most_recent_message_for_channel_spec (st : Database.store) (ch : string) :
  match Database.get_most_recent_message_for_channel st ch with
  | None => Database.join_channel st ch = []
  | Some r =>
      exists m, m ∈ Database.join_channel st ch
        /\ r = {| Database.recent_week := Database.m_week m;
                  Database.recent_message := Database.m_message m;
                  Database.recent_message_timestamp := Database.m_message_timestamp m |}
        /\ forall m', m' ∈ Database.join_channel st ch -> at_least_as_recent m m'
  end.
Proof.
  unfold Database.get_most_recent_message_for_channel.
  destruct (head _) as [m|] eqn:Hhead; simpl.
  - apply head_order_by_two in Hhead as [Hm Hmin]. exists m. split_and!; [done|done|].
    intros m' Hm'. unfold at_least_as_recent. specialize (Hmin m' Hm'). simpl in Hmin. lia.
  - apply head_None in Hhead. by apply order_by_nil_inv, order_by_nil_inv in Hhead.
Qed.

(** ** Reading the request body *)

Lemma append_cons (c : ascii) (s t : string) : String c s +:+ t = String c (s +:+ t).
Proof. reflexivity. Qed.

Lemma strip_prefix_spec (p s r : string) :
  Server.strip_prefix p s = Some r <-> s = p +:+ r.
Proof.
  revert s. induction p as [|a p IH]; intros s; simpl.
  - split; [by intros [= ->]|by intros ->].
  - destruct s as [|b s]; [by split|]. rewrite append_cons.
    case_bool_decide as E.
    + subst b. rewrite IH. split; [by intros ->|by intros [= ->]].
    + split; [done|]. intros [= ? ?]. done.
Qed.

Lemma prefix_spec (p s : string) :
  String.prefix p s = true <-> exists post, s = p +:+ post.
Proof.
  revert s. induction p as [|a p IH]; intros s.
  - destruct s; (split; [intros _; eexists; reflexivity|done]).
  - destruct s as [|b s]; [split; [done|by intros (post & ?)]|].
    change (String.prefix (String a p) (String b s))
      with (if ascii_dec a b then String.prefix p s else false).
    destruct (ascii_dec a b) as [->|Hne].
    + rewrite IH. split; intros (post & E); exists post.
      * by rewrite append_cons, E.
      * rewrite append_cons in E. by injection E.
    + split; [done|]. intros (post & E). rewrite append_cons in E. by injection E.
Qed.

Lemma contains_spec (needle hay : string) :
  Server.contains needle hay = true <-> exists pre post, hay = pre +:+ needle +:+ post.
Proof.
  induction hay as [|c hay IH].
  - change (Server.contains needle EmptyString)
      with (String.prefix needle EmptyString || false).
    rewrite orb_false_r, prefix_spec. split.
    + intros (post & E). by exists EmptyString, post.
    + intros ([|c pre] & post & E); [by exists post|by rewrite append_cons in E].
  - change (Server.contains needle (String c hay))
      with (String.prefix needle (String c hay) || Server.contains needle hay).
    rewrite orb_true_iff, prefix_spec, IH. split.
    + intros [(post & E)|(pre & post & E)].
      * by exists EmptyString, post.
      * exists (String c pre), post. by rewrite append_cons, E.
    + intros ([|c' pre] & post & E).
      * left. by exists post.
      * right. rewrite append_cons in E. injection E as -> ->. by exists pre, post.
Qed.

(** X13.  A request counts as [/check_api] exactly when its path is
    [/slack/events] and its body has the text [command=%2Fcheck_api]
    somewhere in it. *)
Theorem check_api_being_requested_spec (path payload : string) :
  Server.check_api_being_requested path payload = true <->
  path = "/slack/events"%string
  /\ exists pre post, payload = pre +:+ "command=%2Fcheck_api" +:+ post.
Proof.
  unfold Server.check_api_being_requested.
  by rewrite andb_true_iff, bool_decide_eq_true, contains_spec.
Qed.

Lemma lazy_until_amp_sound (s g : string) :
  Server.lazy_until_amp s = Some g ->
  one_line g /\ exists rest, s = g +:+ String Server.amp rest.
Proof.
  revert g. induction s as [|c s IH]; intros g; simpl; [done|].
  case_bool_decide as Hamp.
  - intros [= <-]. subst c. split; [constructor|]. by exists s.
  - case_bool_decide as Hnl; [done|].
    destruct (Server.lazy_until_amp s) as [g'|]; [|done]. simpl. intros [= <-].
    destruct (IH g' eq_refl) as [Hline (rest & ->)]. split.
    + by constructor.
    + by exists rest.
Qed.

Lemma lazy_until_amp_complete (d rest : string) :
  one_line d -> is_Some (Server.lazy_until_amp (d +:+ String Server.amp rest)).
Proof.
  induction d as [|c d IH]; intros Hline.
  - change (EmptyString +:+ String Server.amp rest) with (String Server.amp rest).
    cbn [Server.lazy_until_amp]. by rewrite bool_decide_eq_true_2.
  - rewrite append_cons. cbn [Server.lazy_until_amp].
    change (list_ascii_of_string (String c d)) with (c :: list_ascii_of_string d) in Hline.
    unfold one_line in Hline. apply Forall_cons in Hline as [Hc Hline].
    case_bool_decide; [done|]. rewrite bool_decide_eq_false_2 by done.
    destruct (IH Hline) as [g ->]. done.
Qed.

Lemma search_team_domain_unfold (s : string) :
  Server.search_team_domain s =
  match Server.strip_prefix "team_domain=" s ≫= Server.group_at with
  | Some g => Some g
  | None =>
      match s with
      | EmptyString => None
      | String _ s' => Server.search_team_domain s'
      end
  end.
Proof. by destruct s. Qed.

Lemma group_at_sound (s g : string) :
  Server.group_at s = Some g ->
  g <> EmptyString /\ one_line g /\ exists rest, s = g +:+ String Server.amp rest.
Proof.
  destruct s as [|c s]; simpl; [done|]. case_bool_decide as Hnl; [done|].
  destruct (Server.lazy_until_amp s) as [g'|] eqn:E; [|done]. simpl. intros [= <-].
  apply lazy_until_amp_sound in E as [Hline (rest & ->)]. split_and!; [done| |by exists rest].
  by constructor.
Qed.

Lemma group_at_complete (d rest : string) :
  d <> EmptyString -> one_line d ->
  is_Some (Server.group_at (d +:+ String Server.amp rest)).
Proof.
  destruct d as [|c d]; [done|]. intros _ [Hc Hline]%Forall_cons.
  rewrite append_cons. simpl. rewrite bool_decide_eq_false_2 by done.
  destruct (lazy_until_amp_complete d rest Hline) as [g ->]. done.
Qed.

(** X14.  The accessor read off a body is the group of the leftmost match of
    [team_domain=(.+?(?=&))]: when one is returned, it is not empty, has no
    newline, and stands in the body between [team_domain=] and an [&]; none
    is returned only if the body has no [team_domain=] followed by one or
    more characters of one line and an [&]. *)
Theorem identify_slack_team_domain_spec (payload : string) :
  match Server.identify_slack_team_domain payload with
  | Some g =>
      g <> EmptyString /\ one_line g
      /\ exists pre rest, payload = pre +:+ "team_domain=" +:+ g +:+ String Server.amp rest
  | None =>
      forall pre d rest,
        payload = pre +:+ "team_domain=" +:+ d +:+ String Server.amp rest ->
        d = EmptyString \/ ¬ one_line d
  end.
Proof.
  unfold Server.identify_slack_team_domain.
  destruct (Server.search_team_domain payload) as [g|] eqn:E.
  - revert E. induction payload as [|c s IH]; rewrite search_team_domain_unfold.
    + destruct (Server.strip_prefix _ _) as [r|] eqn:Hr; [|done]. simpl.
      apply strip_prefix_spec in Hr. done.
    + destruct (Server.strip_prefix _ _) as [r|] eqn:Hr; simpl.
      * apply strip_prefix_spec in Hr.
        destruct (Server.group_at r) as [g'|] eqn:Hg.
        -- intros [= <-]. apply group_at_sound in Hg as (? & ? & rest & ->).
           split_and!; [done|done|]. by exists EmptyString, rest.
        -- intros (? & ? & pre & rest & ->)%IH. split_and!; [done|done|].
           by exists (String c pre), rest.
      * intros (? & ? & pre & rest & ->)%IH. split_and!; [done|done|].
        by exists (String c pre), rest.
  - intros pre d rest ->.
    destruct (decide (d = EmptyString)) as [|Hd]; [by left|]. right. intros Hline.
    revert E. induction pre as [|c pre IH]; rewrite search_team_domain_unfold.
    + assert (Server.strip_prefix "team_domain="
                (EmptyString +:+ "team_domain=" +:+ d +:+ String Server.amp rest)
              = Some (d +:+ String Server.amp rest)) as -> by (by apply strip_prefix_spec).
      simpl. by destruct (group_at_complete d rest Hd Hline) as [g ->].
    + rewrite append_cons. destruct (_ ≫= _); [done|]. exact IH.
Qed.

(** ** The middleware *)

(** X15.  Whatever the request, the middleware leaves channels and messages
    alone and touches at most one cooldown record, the one of the accessor
    named in the body for [check_api]; a request it answers itself changes
    nothing at all. *)
Theorem rate_limit_touches_one_cooldown (st : Database.store) (now_check now_create : Z)
    (path body : string) :
  let after := Server.rate_limit_check_api st now_check now_create path body in
  Database.channels after.1 = Database.channels st
  /\ Database.messages after.1 = Database.messages st
  /\ (forall accessor resource,
        Server.identify_slack_team_domain body <> Some accessor
        \/ resource <> "check_api"%string ->
        Database.get_cooldown_expiry_time after.1 accessor resource
        = Database.get_cooldown_expiry_time st accessor resource)
  /\ (after.2 <> Server.call_next -> after.1 = st).
Proof.
  unfold Server.rate_limit_check_api.
  destruct (Server.check_api_being_requested path body); [|done].
  destruct (Server.check_api_on_cooldown st now_check _); [done|]. simpl.
  destruct (Server.identify_slack_team_domain body) as [td|]; [|done]. simpl.
  split_and!; try done.
  intros a r Hother. unfold Database.get_cooldown_expiry_time. simpl.
  apply lookup_insert_ne. intros [= E1 E2].
  destruct Hother as [Ha|Hr]; [apply Ha; by rewrite E1|apply Hr; by rewrite E2].
Qed.

(** X16.  Once the cooldown of an accessor is set at a clock reading, the
    accessor is on cooldown at exactly the instants up to fifteen minutes
    after that reading, the last one included. *)
Theorem cooldown_lasts_fifteen_minutes (st : Database.store) (now_create now : Z) (td : string) :
  Server.check_api_on_cooldown
    (Server.update_check_api_cooldown st now_create (Some td)) now (Some td) = true
  <-> now <= now_create + 15 * Time.minute.
Proof.
  unfold Server.check_api_on_cooldown, Server.update_check_api_cooldown,
    Database.get_cooldown_expiry_time, Database.create_cooldown. simpl.
  rewrite lookup_insert_eq. unfold Time.minutes.
  destruct (Z.gtb_spec now (now_create + 15 * Time.minute)); split; try done; lia.
Qed.

(** ** Weeks *)

(** X17.  The week of a probe date starts on a Sunday, at the probe's time
    of day, one to seven days before the probe date, and lasts seven days;
    the week of a date seven days later starts where it ends. *)
Theorem week_starts_on_the_sunday_before (probe_date : Z) :
  Time.weekday (Bot.week_start_of probe_date) = 6
  /\ Bot.week_start_of probe_date mod Time.day = probe_date mod Time.day
  /\ Time.days 1 <= probe_date - Bot.week_start_of probe_date <= Time.days 7
  /\ Bot.week_end_of probe_date = Bot.week_start_of probe_date + Time.days 7
  /\ Bot.week_start_of (probe_date + Time.days 7) = Bot.week_end_of probe_date.
Proof.
  unfold Bot.week_end_of, Bot.week_start_of, Time.weekday, Time.days.
  change Time.day with 86400000000.
  split_and!; try done; Z.div_mod_to_equations; lia.
Qed.

(** X18.  The look-ahead probe of [check_api], five days after today, falls
    into today's week on Mondays and Tuesdays and into the following week on
    every other day. *)
Theorem probe_week_is_this_or_next (today : Z) :
  Bot.week_start_of (today + Time.days 5) =
  if Time.weekday today <? 2 then Bot.week_start_of today
  else Bot.week_start_of today + Time.days 7.
Proof.
  unfold Bot.week_start_of, Time.weekday, Time.days.
  change Time.day with 86400000000.
  destruct (Z.ltb_spec ((today / 86400000000 + 3) mod 7) 2);
    Z.div_mod_to_equations; lia.
Qed.

(** ** The further theorems at work *)

(** X2 at work: a channel that never subscribed. *)
Lemma message_of_unsubscribed_channel_raises_witness :
  ("C0999"%string ∉ Database.get_slack_channel_ids Scenario.subscribed)
  /\ Database.create_message Scenario.subscribed Scenario.sunday "text" 1698000000000000
       "C0999" 0 = Raise TypeError
  /\ Database.update_message Scenario.subscribed Scenario.sunday "text" 1698000000000000
       "C0999" = Raise TypeError.
Proof.
  assert ("C0999"%string ∉ Database.get_slack_channel_ids Scenario.subscribed) as Hnot.
  { intros Hin. apply list_elem_of_singleton in Hin. discriminate Hin. }
  destruct (message_of_unsubscribed_channel_raises Scenario.subscribed Scenario.sunday
              "text" 1698000000000000 "C0999" 0 Hnot) as (Hc & Hu & _).
  split; [exact Hnot|]. split; [exact Hc|exact Hu].
Defined.

Lemma subscribed_has_channel :
  "C0123"%string ∈ Database.get_slack_channel_ids Scenario.subscribed.
Proof. apply list_elem_of_singleton. reflexivity. Defined.

(** X3 at work: the first message of the subscribed channel. *)
Lemma create_message_then_get_messages_witness :
  exists st',
    Database.create_message Scenario.subscribed Scenario.sunday "text" 1698000000000000
      "C0123" 0 = Ok st'
    /\ Database.get_messages st' Scenario.sunday =
       [ {| Database.message := "text"; Database.message_timestamp := 1698000000000000;
            Database.slack_channel_id := "C0123"; Database.sequence_position := 0 |} ].
Proof.
  destruct (create_message_then_get_messages Scenario.subscribed Scenario.sunday "text"
              1698000000000000 "C0123" 0 subscribed_has_channel) as (st' & Hc & _).
  exists st'. split; [exact Hc|].
  vm_compute in Hc. injection Hc as <-. reflexivity.
Defined.

(** X4 at work: an update where nothing was posted. *)
Lemma update_message_without_match_witness :
  Database.update_message Scenario.subscribed Scenario.sunday "text" 1698000000000000 "C0123"
  = Ok Scenario.subscribed.
Proof.
  destruct (update_message_without_match Scenario.subscribed Scenario.sunday "text"
              1698000000000000 "C0123" subscribed_has_channel)
    as (cid & st' & _ & Hu & _ & Hsame).
  rewrite Hu. f_equal. apply Hsame. intros m Hm. apply elem_of_nil in Hm. destruct Hm.
Defined.

(** X5 at work: a second channel subscribes, twice. *)
Lemma add_channel_then_again_witness :
  exists st1,
    Database.add_channel Scenario.subscribed "C0999" = Ok st1
    /\ Database.get_slack_channel_ids st1 = ["C0123"; "C0999"]%string
    /\ Database.add_channel st1 "C0999" = Raise IntegrityError.
Proof.
  assert ("C0999"%string ∉ Database.get_slack_channel_ids Scenario.subscribed) as Hnot.
  { intros Hin. apply list_elem_of_singleton in Hin. discriminate Hin. }
  destruct (add_channel_then_again Scenario.subscribed "C0999" Hnot)
    as (st1 & Hadd & Hids & _ & _ & Hagain).
  exists st1. split; [exact Hadd|]. split; [rewrite Hids; reflexivity|exact Hagain].
Defined.

Lemma subscribed_wf : store_wf Scenario.subscribed.
Proof.
  unfold store_wf, channels_wf. simpl.
  split_and!; try apply NoDup_singleton; try apply NoDup_nil_2; repeat constructor.
Defined.

(** X8 at work: the subscribed channel leaves and comes back. *)
Lemma resubscribed_channel_starts_fresh_witness :
  store_wf Scenario.subscribed
  /\ exists st1 st2,
       Database.remove_channel Scenario.subscribed "C0123" = Ok st1
       /\ Database.add_channel st1 "C0123" = Ok st2
       /\ Database.channels st2 =
          [ {| Database.c_id := 2; Database.c_slack_channel_id := "C0123" |} ]
       /\ stored st2 Scenario.sunday "C0123" = None.
Proof.
  split; [exact subscribed_wf|].
  destruct (resubscribed_channel_starts_fresh Scenario.subscribed "C0123" subscribed_wf)
    as (st1 & st2 & Hr & Ha & _ & Hnone).
  exists st1, st2. split; [exact Hr|]. split; [exact Ha|]. split; [|apply Hnone].
  vm_compute in Hr. injection Hr as <-. vm_compute in Ha. injection Ha as <-. reflexivity.
Defined.

(** X10 at work: a sweep at nine, a request at ten, a cooldown that ran out
    at nine. *)
Lemma sweep_keeps_throttles_witness :
  0 <= Database.default_days_back
  /\ Scenario.ten_o_clock - 60 * Time.minute <= Scenario.ten_o_clock
  /\ Server.check_api_on_cooldown
       (Database.delete_old_messages Scenario.expired_cooldown
          (Scenario.ten_o_clock - 60 * Time.minute) (Scenario.ten_o_clock - 60 * Time.minute)
          Database.default_days_back)
       Scenario.ten_o_clock (Some "hackgvl"%string)
     = Server.check_api_on_cooldown Scenario.expired_cooldown Scenario.ten_o_clock
         (Some "hackgvl"%string).
Proof.
  assert (0 <= Database.default_days_back) as Hdays by (unfold Database.default_days_back; lia).
  assert (Scenario.ten_o_clock - 60 * Time.minute <= Scenario.ten_o_clock) as Hnow
    by (unfold Time.minute, Time.second; lia).
  split; [exact Hdays|]. split; [exact Hnow|].
  exact (sweep_keeps_throttles Scenario.expired_cooldown
           (Scenario.ten_o_clock - 60 * Time.minute) (Scenario.ten_o_clock - 60 * Time.minute)
           Database.default_days_back Scenario.ten_o_clock "hackgvl" Hdays Hnow).
Defined.

(** X11 at work: sweeps at nine and at ten. *)
Lemma sweep_after_sweep_witness :
  Scenario.ten_o_clock - 60 * Time.minute <= Scenario.ten_o_clock
  /\ Database.delete_old_messages
       (Database.delete_old_messages Scenario.expired_cooldown
          (Scenario.ten_o_clock - 60 * Time.minute) (Scenario.ten_o_clock - 60 * Time.minute)
          Database.default_days_back)
       Scenario.ten_o_clock Scenario.ten_o_clock Database.default_days_back
     = Database.delete_old_messages Scenario.expired_cooldown
         Scenario.ten_o_clock Scenario.ten_o_clock Database.default_days_back.
Proof.
  assert (Scenario.ten_o_clock - 60 * Time.minute <= Scenario.ten_o_clock) as Hnow
    by (unfold Time.minute, Time.second; lia).
  split; [exact Hnow|].
  exact (sweep_after_sweep Scenario.expired_cooldown
           (Scenario.ten_o_clock - 60 * Time.minute) (Scenario.ten_o_clock - 60 * Time.minute)
           Scenario.ten_o_clock Scenario.ten_o_clock
           Database.default_days_back Hnow Hnow).
Defined.

(** ** A turn of the reconciliation loop *)

(** What the two lookup structures of the loop hold for a channel: the last
    of its rows. *)
Lemma message_details_lookup (msgs : list Database.message_dict) (ch : string) :
  Bot.message_details msgs !! ch =
  (fun d => (Database.message_timestamp d, Database.message d)) <$>
  last (filter (fun d => Database.slack_channel_id d = ch) msgs).
Proof.
  induction msgs as [|d msgs IH] using rev_ind; [done|].
  unfold Bot.message_details in *. rewrite foldl_snoc, filter_app, filter_cons, filter_nil.
  destruct (decide (Database.slack_channel_id d = ch)) as [<-|Hne].
  - by rewrite lookup_insert_eq, last_snoc.
  - by rewrite lookup_insert_ne, app_nil_r.
Qed.

Lemma posted_channels_set_elem (msgs : list Database.message_dict) (ch : string) :
  ch ∈ Bot.posted_channels_set msgs <->
  is_Some (last (filter (fun d => Database.slack_channel_id d = ch) msgs)).
Proof.
  unfold Bot.posted_channels_set.
  rewrite elem_of_list_to_set, list_elem_of_fmap, last_is_Some. split.
  - intros (d & -> & Hd) E.
    assert (d ∈ filter (fun d' => Database.slack_channel_id d' = Database.slack_channel_id d) msgs)
      as Hin by (by apply list_elem_of_filter).
    rewrite E in Hin. by apply elem_of_nil in Hin.
  - intros Hne. destruct (filter _ msgs) as [|d l] eqn:E; [done|].
    assert (d ∈ filter (fun d => Database.slack_channel_id d = ch) msgs) as Hin
      by (rewrite E; left).
    apply list_elem_of_filter in Hin as [? ?]. eauto.
Qed.

(** X19.  One turn of the loop, on the rows [msgs] and with the connection
    of [bot.py], never writes to the database.  Where the row kept for the
    channel has the text, nothing is done.  Where it has another text, the
    message is updated in Slack and the turn raises: the client's exception,
    or the [TypeError] of [update_message] called with five arguments.
    Where there is no row, the message is posted and the turn raises: the
    client's exception, or that of [create_message], which runs with its
    parameters bound one place off.  No message sent is recorded. *)
Theorem loop_turn_records_nothing `{Bot.Slack} (week : Z) (blocks : list Bot.json)
    (text : string) (msgs : list Database.message_dict) (ch : string) (w : Bot.world) :
  exists w' r,
    Bot.post_or_update_channel Bot.CONN week blocks text
      (Bot.message_details msgs) (Bot.posted_channels_set msgs) ch w = Some (w', r)
    /\ Bot.db w' = Bot.db w
    /\ Bot.acks w' = Bot.acks w
    /\ match last (filter (fun d => Database.slack_channel_id d = ch) msgs) with
       | None =>
           Bot.calls w' = Bot.calls w ++ [Bot.chat_postMessage ch blocks text]
           /\ exists e, r = Raise e
       | Some d =>
           if decide (Database.message d = text) then w' = w /\ r = Ok tt
           else
             Bot.calls w' =
               Bot.calls w ++ [Bot.chat_update (Database.message_timestamp d) ch blocks text]
             /\ exists e, r = Raise e
       end.
Proof.
  unfold Bot.post_or_update_channel, Bot.io_bind, Bot.lift, Bot.ret, Bot.getitem.
  rewrite message_details_lookup.
  pose proof (posted_channels_set_elem msgs ch) as Hposted.
  destruct (last _) as [d|]; simpl.
  - rewrite (bool_decide_eq_true_2 _ (proj2 Hposted (mk_is_Some _ _ eq_refl))). simpl.
    destruct (decide (Database.message d = text)) as [E|E].
    + rewrite (bool_decide_eq_true_2 _ (eq_sym E)). simpl.
      eexists _, _. by split_and!.
    + rewrite bool_decide_eq_false_2 by congruence. simpl.
      unfold Bot.slack. simpl.
      destruct (Bot.slack_response _) as [ts|e]; simpl;
        eexists _, _; (split_and!; [reflexivity|done|done|done|by eexists]).
  - rewrite bool_decide_eq_false_2; [|intros Hin; by apply Hposted, is_Some_None in Hin]. simpl.
    unfold Bot.slack. simpl.
    destruct (Bot.slack_response _) as [ts|e]; simpl;
      [|eexists _, _; (split_and!; [reflexivity|done|done|done|by eexists])].
    unfold Bot.execute, Call.create_message, Call.select_channel_id. simpl.
    destruct (Database.select_channel_id _ _); simpl;
      eexists _, _; (split_and!; [reflexivity|done|done|done|by eexists]).
Qed.

(** ** The cycle of [check_api] *)

(** X21.  A run of [check_api] does not return.  When the request or the
    decoding of its answer fails it raises their exception; otherwise the
    message of the current week is built and the reconciliation raises
    [TypeError] at its first statement.  Either way no call is made to
    Slack, nothing is written, and the week of the probe date is not
    reached. *)
Theorem check_api_never_returns `{Bot.Slack} (conn : Call.value) (w : Bot.world)
    (today : Z) (resp : result (list Bot.Event)) :
  Bot.check_api conn today resp w =
  Some (w, Raise match resp with
                 | Ok _ => TypeError
                 | Raise e => e
                 end).
Proof. by destruct resp. Qed.
